(** * rsync-service: the job-execution engine of [sync.py]

    A shallow embedding of [BackupSync] (status store, job runner, statistics
    parser, notifier and orchestrator) and the properties of its
    specification, followed by further properties of the engine and of the
    two handlers of [web_server.py] that read the files the engine writes.

    Conventions of the embedding.
    - A Python [str] is a [string]; each character stands for one code point
      below 256. Literals of the source with characters beyond that range
      (the check mark, the cross and the bullet) appear in their UTF-8
      encoding; they only occur in log and mail texts.
    - A Python dict with a fixed set of keys is a record; a key read with
      [.get] or guarded by a handler is an [option] field ([None] = key
      absent), a key read with [d[key]] outside any handler is a plain
      field. A dict keyed by data is a [gmap]. So the configuration and the
      status document have the shape the specification gives them (section
      6); a status file that decodes to anything else is outside the model.
    - Exceptions are values: a computation returns [Ret a] or [Raise r], and
      [try_except] catches what [except Exception] catches.
    - Everything outside the interpreter (clock, child processes, writing the
      status file, the mail relay) is an oracle of the environment [Env],
      asked with the trace of the events observed so far; every interaction
      is appended to that trace. *)

From Stdlib Require Import ZArith Ascii String.
From stdpp Require Import gmap strings list pretty.

Local Open Scope Z_scope.

(** ** Python string primitives used by [sync.py] *)

Module PyStr.

Definition newline : ascii := "010"%char.
Definition colon : ascii := ":"%char.

(** [c.isspace()] on code points below 256: TAB..CR, FS..US, SPACE, NEL
    and NBSP. *)
Definition isspace (c : ascii) : bool :=
  let n := N_of_ascii c in
  ((9 <=? n) && (n <=? 13) || (28 <=? n) && (n <=? 32)
   || (n =? 133) || (n =? 160))%N.

(** [s.lstrip()] *)
Fixpoint lstrip (s : string) : string :=
  match s with
  | EmptyString => EmptyString
  | String c s' => if isspace c then lstrip s' else s
  end.

(** [s.rstrip()] *)
Definition rstrip (s : string) : string :=
  String.rev (lstrip (String.rev s)).

(** [s.strip()] *)
Definition strip (s : string) : string := rstrip (lstrip s).

(** [s.split(sep)] for a one-character separator: never empty, one more
    piece than there are separators. *)
Fixpoint split (sep : ascii) (s : string) : list string :=
  match s with
  | EmptyString => [EmptyString]
  | String c s' =>
      if Ascii.eqb c sep then EmptyString :: split sep s'
      else match split sep s' with
           | piece :: rest => String c piece :: rest
           | [] => [String c EmptyString]
           end
  end.

(** [sub in s] *)
Fixpoint contains (sub s : string) : bool :=
  String.prefix sub s
  || match s with
     | EmptyString => false
     | String _ s' => contains sub s'
     end.

(** [s.split()] : maximal runs of non-whitespace characters. *)
Fixpoint split_ws_go (cur : string) (s : string) : list string :=
  match s with
  | EmptyString =>
      match cur with EmptyString => [] | _ => [String.rev cur] end
  | String c s' =>
      if isspace c
      then match cur with
           | EmptyString => split_ws_go EmptyString s'
           | _ => String.rev cur :: split_ws_go EmptyString s'
           end
      else split_ws_go (String c cur) s'
  end.
Definition split_ws (s : string) : list string := split_ws_go EmptyString s.

(** [sep.join(l)] *)
Fixpoint join (sep : string) (l : list string) : string :=
  match l with
  | [] => EmptyString
  | [x] => x
  | x :: rest => x +:+ sep +:+ join sep rest
  end.

(** The next three functions only serve to state properties of the
    primitives above. *)

(** [c in s] for one character. *)
Fixpoint has_char (c : ascii) (s : string) : bool :=
  match s with
  | EmptyString => false
  | String a s' => Ascii.eqb a c || has_char c s'
  end.

(** The text after the first [sep] of [s]; empty if there is none. *)
Fixpoint after_first (sep : ascii) (s : string) : string :=
  match s with
  | EmptyString => EmptyString
  | String a s' => if Ascii.eqb a sep then s' else after_first sep s'
  end.

(** The text before the first [sep] of [s]; all of [s] if there is none. *)
Fixpoint before_first (sep : ascii) (s : string) : string :=
  match s with
  | EmptyString => EmptyString
  | String a s' =>
      if Ascii.eqb a sep then EmptyString else String a (before_first sep s')
  end.

(** Truthiness of a string: [bool(s)]. *)
Definition truthy (s : string) : bool :=
  match s with EmptyString => false | _ => true end.

End PyStr.

(** ** Exceptions *)

(** The exception classes the program tells apart, all below [Exception]. *)
Inductive ExcClass :=
| FileNotFoundError
| TimeoutExpired
| KeyError
| IndexError
| OtherException.

(** An instance of [Exception]: its class and its [str(e)]. *)
Record exception := mkExc { exc_class : ExcClass; exc_str : string }.

(** What a [raise] carries: an [Exception], or [SystemExit] from
    [sys.exit(code)], which [except Exception] does not catch. *)
Inductive raised :=
| Exc (e : exception)
| SystemExit (code : Z).

Inductive result (A : Type) :=
| Ret (a : A)
| Raise (r : raised).
Arguments Ret {A} a.
Arguments Raise {A} r.

Definition result_bind {A B} (r : result A) (k : A -> result B) : result B :=
  match r with
  | Ret a => k a
  | Raise e => Raise e
  end.

Definition key_error (key : string) : raised :=
  Exc (mkExc KeyError ("'" +:+ key +:+ "'")).

Definition index_error : raised :=
  Exc (mkExc IndexError "list index out of range").

(** [l[i]] on a list. *)
Definition list_item {A} (l : list A) (i : nat) : result A :=
  match l !! i with
  | Some x => Ret x
  | None => Raise index_error
  end.

(** [d[key]] on an optional field of a dict. *)
Definition dict_item {A} (key : string) (field : option A) : result A :=
  match field with
  | Some x => Ret x
  | None => Raise (key_error key)
  end.

(** ** StatsParser: [BackupSync.parse_rsync_stats] *)

(** [line.split(':')[1].strip()] *)
Definition colon_field (line : string) : result string :=
  result_bind (list_item (PyStr.split PyStr.colon line) 1)
              (fun v => Ret (PyStr.strip v)).

(** One iteration of the [for line in lines] loop. *)
Definition parse_line (stats : gmap string string) (line : string)
  : result (gmap string string) :=
  if PyStr.contains "Number of files:" line then
    result_bind (colon_field line) (fun v => Ret (<["total_files" := v]> stats))
  else if PyStr.contains "Number of created files:" line then
    result_bind (colon_field line) (fun v => Ret (<["created_files" := v]> stats))
  else if PyStr.contains "Number of deleted files:" line then
    result_bind (colon_field line) (fun v => Ret (<["deleted_files" := v]> stats))
  else if PyStr.contains "Total transferred file size:" line then
    result_bind (colon_field line) (fun v => Ret (<["transferred_size" := v]> stats))
  else if PyStr.contains "Total file size:" line then
    result_bind (colon_field line) (fun v => Ret (<["total_size" := v]> stats))
  else Ret stats.

Fixpoint parse_lines (lines : list string) (stats : gmap string string)
  : result (gmap string string) :=
  match lines with
  | [] => Ret stats
  | line :: rest => result_bind (parse_line stats line) (parse_lines rest)
  end.

Definition parse_rsync_stats (output : string) : result (gmap string string) :=
  parse_lines (PyStr.split PyStr.newline output) ∅.

(** ** Data model *)

(** Instants are microseconds on the clock; [datetime.isoformat()] is kept
    as the instant it prints. *)
Definition datetime := Z.

(** The [duration] of a RunResult: an [int] literal of the source, or the
    [float] that [timedelta.total_seconds()] yields for a difference of
    [us] microseconds. *)
Inductive Duration :=
| DurSeconds (n : Z)
| DurMeasured (us : Z).

(** One entry of [config['sync_jobs']]. *)
Record JobSpec := mkJob {
  job_name : string;
  job_source : string;
  job_destination : string;
  job_exclude : option (list string);
  job_enabled : option bool
}.

(** [settings['notification']] *)
Record Notification := mkNotification {
  smtp_server : option string;
  smtp_port : option Z;
  smtp_user : option string;
  smtp_pass : option string;
  email : option string
}.

Record Settings := mkSettings {
  ssh_key : option string;
  rsync_options : option string;
  notification : option Notification
}.

Record Config := mkConfig {
  settings : option Settings;
  sync_jobs : list JobSpec
}.

(** The [job_status] dict built by [run_rsync]. *)
Record RunResult := mkRunResult {
  rr_name : string;
  rr_source : string;
  rr_destination : string;
  rr_last_run : datetime;
  rr_duration : Duration;
  rr_success : bool;
  rr_return_code : Z;
  rr_error : option string;
  rr_stats : gmap string string;
  rr_stdout : string;
  rr_stderr : string
}.

Record Summary := mkSummary {
  successful : nat;
  failed : nat;
  total : nat
}.

(** [self.status], and the document stored in [status.json]. *)
Record StatusDocument := mkStatus {
  jobs : gmap string RunResult;
  last_run : option datetime;
  total_runs : option Z;
  last_summary : option Summary
}.

(** [{'jobs': {}, 'last_run': None, 'total_runs': 0}] *)
Definition empty_status : StatusDocument :=
  mkStatus ∅ None (Some 0) None.

Definition set_job (name : string) (r : RunResult) (d : StatusDocument) :=
  mkStatus (<[name := r]> (jobs d)) (last_run d) (total_runs d) (last_summary d).
Definition set_last_run (t : datetime) (d : StatusDocument) :=
  mkStatus (jobs d) (Some t) (total_runs d) (last_summary d).
Definition set_total_runs (n : Z) (d : StatusDocument) :=
  mkStatus (jobs d) (last_run d) (Some n) (last_summary d).
Definition set_last_summary (s : Summary) (d : StatusDocument) :=
  mkStatus (jobs d) (last_run d) (total_runs d) (Some s).

(** ** The world outside the interpreter *)

Inductive Level := INFO | WARNING | ERROR.

(** An interpolated value of a log line. *)
Inductive LogArg :=
| AStr (s : string)
| AInt (n : Z)
| ALen (n : nat)
| ADur (d : Duration).

(** [subprocess.CompletedProcess] with captured text output. *)
Record CompletedProcess := mkCompleted {
  returncode : Z;
  stdout : string;
  stderr : string
}.

(** The message handed to [server.send_message]. *)
Record Mail := mkMail {
  mail_from : string;
  mail_to : string;
  mail_subject : string;
  mail_body : string
}.

Inductive SmtpAction :=
| SmtpConnect (host : string) (port : Z)
| SmtpStartTls
| SmtpLogin (user pass : string)
| SmtpSendMessage (msg : Mail)
| SmtpQuit.

Inductive WriteOutcome :=
| Written
| OpenFailed (e : exception)
| DumpFailed (e : exception).

Inductive FileState (A : Type) :=
| Absent
| Holds (content : A)
| Unreadable (e : exception).
Arguments Absent {A}.
Arguments Holds {A} content.
Arguments Unreadable {A} e.

(** Everything the program does to the outside, in order. A log line is its
    level, the text of its f-string with [{}] for each interpolation, and the
    interpolated values. *)
Inductive Event :=
| EvLog (lvl : Level) (fmt : string) (args : list LogArg)
| EvRun (cmd : list string) (timeout : Z) (out : exception + CompletedProcess)
| EvReadStatus
| EvWriteStatus (doc : StatusDocument) (out : WriteOutcome)
| EvSmtp (act : SmtpAction) (out : option exception).

(** The environment answers from the history of events. *)
Record Env := mkEnv {
  env_now : list Event -> datetime;
  env_run : list Event -> list string -> Z -> exception + CompletedProcess;
  env_write : list Event -> StatusDocument -> WriteOutcome;
  env_smtp : list Event -> SmtpAction -> option exception
}.

(** The attributes of the [BackupSync] object and the files it touches. *)
Record State := mkState {
  status : StatusDocument;
  status_file : FileState StatusDocument;
  config_file : FileState Config;
  trace : list Event
}.

Definition with_status (d : StatusDocument) (s : State) : State :=
  mkState d (status_file s) (config_file s) (trace s).
Definition with_status_file (f : FileState StatusDocument) (s : State) : State :=
  mkState (status s) f (config_file s) (trace s).
Definition emit (e : Event) (s : State) : State :=
  mkState (status s) (status_file s) (config_file s) (trace s ++ [e]).

(** ** Computations: state and exceptions *)

Definition M (A : Type) : Type := State -> result A * State.

Definition ret {A} (a : A) : M A := fun s => (Ret a, s).

Definition bind {A B} (m : M A) (k : A -> M B) : M B :=
  fun s => match m s with
           | (Ret a, s') => k a s'
           | (Raise r, s') => (Raise r, s')
           end.

Notation "x <- m ;; k" := (bind m (fun x => k))
  (at level 100, m at next level, right associativity).
Notation "m ;;; k" := (bind m (fun _ => k))
  (at level 100, right associativity).

Definition raise {A} (r : raised) : M A := fun s => (Raise r, s).

(** A pure computation that may raise. *)
Definition lift {A} (r : result A) : M A := fun s => (r, s).

Definition gets {A} (f : State -> A) : M A := fun s => (Ret (f s), s).
Definition modify (f : State -> State) : M unit := fun s => (Ret tt, f s).

(** [try: body  except Exception as e: handler e]; [SystemExit] passes
    through. The handlers of the source that name a class are written as a
    match on [exc_class e] inside [handler]. *)
Definition try_except {A} (body : M A) (handler : exception -> M A) : M A :=
  fun s => match body s with
           | (Raise (Exc e), s') => handler e s'
           | other => other
           end.

(** [sys.exit(code)] *)
Definition sys_exit {A} (code : Z) : M A := raise (SystemExit code).

Definition modify_status (f : StatusDocument -> StatusDocument) : M unit :=
  modify (fun s => with_status (f (status s)) s).

Definition nl : string := String PyStr.newline EmptyString.

(** [self.config.get('settings', {})] *)
Definition settings_of (cfg : Config) : Settings :=
  default (mkSettings None None None) (settings cfg).

(** [settings.get('notification', {})] *)
Definition notification_of (cfg : Config) : Notification :=
  default (mkNotification None None None None None)
          (notification (settings_of cfg)).

(** [job.get('enabled', True)] *)
Definition is_enabled (job : JobSpec) : bool :=
  default true (job_enabled job).

(** The argument list [cmd] built at the head of [run_rsync]. *)
Definition build_cmd (cfg : Config) (job : JobSpec) : list string :=
  let remote_shell :=
    match ssh_key (settings_of cfg) with
    | Some key =>
        if PyStr.truthy key
        then ["-e"; "ssh -i " +:+ key +:+ " -o StrictHostKeyChecking=no"]
        else ["-e"; "ssh -o StrictHostKeyChecking=no"]
    | None => ["-e"; "ssh -o StrictHostKeyChecking=no"]
    end in
  let options :=
    PyStr.split_ws
      (default "-avz --delete --stats" (rsync_options (settings_of cfg))) in
  let excludes :=
    flat_map (fun pattern => ["--exclude"; pattern])
             (default [] (job_exclude job)) in
  ["rsync"] ++ remote_shell ++ options ++ excludes
    ++ [job_source job; job_destination job].

(** The text of the notification mail. *)
Definition mail_entry (r : RunResult) : string :=
  "• " +:+ rr_name r +:+ nl +:+
  "  Source: " +:+ rr_source r +:+ nl +:+
  "  Error: " +:+ default "Unknown error" (rr_error r) +:+ nl +:+ nl.

Definition compose_body (failed_jobs : list RunResult) : string :=
  fold_left (fun body r => body +:+ mail_entry r) failed_jobs
            ("The following backup jobs failed:" +:+ nl +:+ nl).

Definition compose_subject (failed_jobs : list RunResult) : string :=
  "Backup Sync Failed - " +:+ pretty (length failed_jobs) +:+ " job(s)".

Section Engine.

Variable env : Env.

(** *** Primitive effects *)

Definition log (lvl : Level) (fmt : string) (args : list LogArg) : M unit :=
  modify (emit (EvLog lvl fmt args)).

(** [datetime.datetime.now()] *)
Definition now : M datetime :=
  gets (fun s => env_now env (trace s)).

(** [subprocess.run(cmd, capture_output=True, text=True, timeout=t)] *)
Definition subprocess_run (cmd : list string) (t : Z) : M CompletedProcess :=
  fun s =>
    let out := env_run env (trace s) cmd t in
    let s' := emit (EvRun cmd t out) s in
    match out with
    | inl e => (Raise (Exc e), s')
    | inr p => (Ret p, s')
    end.

(** [with open(self.status_file, 'r') as f: json.load(f)] *)
Definition read_status_file : M StatusDocument :=
  fun s =>
    let s' := emit EvReadStatus s in
    match status_file s with
    | Absent =>
        (Raise (Exc (mkExc FileNotFoundError
           "[Errno 2] No such file or directory: 'status.json'")), s')
    | Holds doc => (Ret doc, s')
    | Unreadable e => (Raise (Exc e), s')
    end.

(** [with open(self.status_file, 'w') as f: json.dump(doc, f, ...)].
    A failed [open] leaves the file as it was; a failed [dump] leaves a
    truncated document behind. *)
Definition write_status_file (doc : StatusDocument) : M unit :=
  fun s =>
    let out := env_write env (trace s) doc in
    let s' := emit (EvWriteStatus doc out) s in
    match out with
    | Written => (Ret tt, with_status_file (Holds doc) s')
    | OpenFailed e => (Raise (Exc e), s')
    | DumpFailed e =>
        (Raise (Exc e),
         with_status_file
           (Unreadable (mkExc OtherException "Expecting value")) s')
    end.

(** One call on the [smtplib.SMTP] session. *)
Definition smtp (act : SmtpAction) : M unit :=
  fun s =>
    let out := env_smtp env (trace s) act in
    let s' := emit (EvSmtp act out) s in
    match out with
    | Some e => (Raise (Exc e), s')
    | None => (Ret tt, s')
    end.

(** [with open(self.config_file, 'r') as f: json.load(f)] *)
Definition read_config_file : M Config :=
  fun s =>
    match config_file s with
    | Absent =>
        (Raise (Exc (mkExc FileNotFoundError
           "[Errno 2] No such file or directory: 'config.json'")), s)
    | Holds cfg => (Ret cfg, s)
    | Unreadable e => (Raise (Exc e), s)
    end.

(** *** StatusStore *)

(** [BackupSync.save_status] *)
Definition save_status : M unit :=
  try_except
    (doc <- gets status ;;
     write_status_file doc)
    (fun e => log ERROR "Failed to save status: {}" [AStr (exc_str e)]).

(** [BackupSync.load_status] *)
Definition load_status : M unit :=
  try_except
    (doc <- read_status_file ;;
     modify_status (fun _ => doc))
    (fun e =>
       match exc_class e with
       | FileNotFoundError =>
           modify_status (fun _ => empty_status) ;;;
           save_status
       | _ =>
           log ERROR "Failed to load status: {}" [AStr (exc_str e)] ;;;
           modify_status (fun _ => mkStatus ∅ None (Some 0) None)
       end).

(** [BackupSync.load_config] *)
Definition load_config : M Config :=
  try_except
    (cfg <- read_config_file ;;
     log INFO "Configuration loaded from {}" [AStr "config.json"] ;;;
     ret cfg)
    (fun e =>
       log ERROR "Failed to load configuration: {}" [AStr (exc_str e)] ;;;
       sys_exit 1).

(** *** JobRunner: [BackupSync.run_rsync] *)

Definition run_rsync (cfg : Config) (job : JobSpec) : M RunResult :=
  let name := job_name job in
  let source := job_source job in
  let destination := job_destination job in
  let cmd := build_cmd cfg job in
  log INFO "Starting sync for {}: {}" [AStr name; AStr (PyStr.join " " cmd)] ;;;
  start_time <- now ;;
  try_except
    (result <- subprocess_run cmd 3600 ;;
     end_time <- now ;;
     let duration := DurMeasured (end_time - start_time) in
     stats <- lift (parse_rsync_stats (stdout result)) ;;
     let job_status :=
       mkRunResult name source destination start_time duration
                   (returncode result =? 0) (returncode result) None
                   stats (stdout result) (stderr result) in
     modify_status (set_job name job_status) ;;;
     (if returncode result =? 0
      then log INFO "✓ {} completed successfully in {:.1f}s"
               [AStr name; ADur duration]
      else log ERROR "✗ {} failed with return code {}"
               [AStr name; AInt (returncode result)] ;;;
           log ERROR "Error output: {}" [AStr (stderr result)]) ;;;
     ret job_status)
    (fun e =>
       match exc_class e with
       | TimeoutExpired =>
           log ERROR "✗ {} timed out after 1 hour" [AStr name] ;;;
           let job_status :=
             mkRunResult name source destination start_time (DurSeconds 3600)
                         false (-1) (Some "Timeout after 1 hour")
                         ∅ "" "Process timed out" in
           modify_status (set_job name job_status) ;;;
           ret job_status
       | _ =>
           log ERROR "✗ {} failed with exception: {}"
               [AStr name; AStr (exc_str e)] ;;;
           let job_status :=
             mkRunResult name source destination start_time (DurSeconds 0)
                         false (-1) (Some (exc_str e))
                         ∅ "" (exc_str e) in
           modify_status (set_job name job_status) ;;;
           ret job_status
       end).

(** *** Notifier: [BackupSync.send_notification] *)

Definition send_notification (cfg : Config) (failed_jobs : list RunResult)
  : M unit :=
  match failed_jobs with
  | [] => ret tt
  | _ :: _ =>
      try_except
        (let notification_config := notification_of cfg in
         if negb (PyStr.truthy (default "" (email notification_config)))
         then log WARNING
                  "No email configuration found, skipping notification" []
         else
           from <- lift (dict_item "smtp_user" (smtp_user notification_config)) ;;
           to <- lift (dict_item "email" (email notification_config)) ;;
           let msg := mkMail from to (compose_subject failed_jobs)
                             (compose_body failed_jobs) in
           host <- lift (dict_item "smtp_server" (smtp_server notification_config)) ;;
           port <- lift (dict_item "smtp_port" (smtp_port notification_config)) ;;
           smtp (SmtpConnect host port) ;;;
           smtp SmtpStartTls ;;;
           user <- lift (dict_item "smtp_user" (smtp_user notification_config)) ;;
           pass <- lift (dict_item "smtp_pass" (smtp_pass notification_config)) ;;
           smtp (SmtpLogin user pass) ;;;
           smtp (SmtpSendMessage msg) ;;;
           smtp SmtpQuit ;;;
           log INFO "Notification email sent successfully" [])
        (fun e =>
           log ERROR "Failed to send notification email: {}"
               [AStr (exc_str e)])
  end.

(** *** Orchestrator: [BackupSync.run_all_jobs] *)

(** The [for job in self.config['sync_jobs']] loop, with its two
    accumulators. *)
Fixpoint run_jobs_loop (cfg : Config) (todo : list JobSpec)
         (successful_jobs failed_jobs : list RunResult)
  : M (list RunResult * list RunResult) :=
  match todo with
  | [] => ret (successful_jobs, failed_jobs)
  | job :: rest =>
      if negb (is_enabled job)
      then log INFO "Skipping disabled job: {}" [AStr (job_name job)] ;;;
           run_jobs_loop cfg rest successful_jobs failed_jobs
      else job_result <- run_rsync cfg job ;;
           if rr_success job_result
           then run_jobs_loop cfg rest (successful_jobs ++ [job_result])
                              failed_jobs
           else run_jobs_loop cfg rest successful_jobs
                              (failed_jobs ++ [job_result])
  end.

Definition run_all_jobs (cfg : Config) : M bool :=
  log INFO "Starting backup sync run" [] ;;;
  start_time <- now ;;
  lists <- run_jobs_loop cfg (sync_jobs cfg) [] [] ;;
  let successful_jobs := fst lists in
  let failed_jobs := snd lists in
  modify_status (set_last_run start_time) ;;;
  modify_status
    (fun d => set_total_runs (default 0 (total_runs d) + 1) d) ;;;
  modify_status
    (set_last_summary
       (mkSummary (length successful_jobs) (length failed_jobs)
                  (length successful_jobs + length failed_jobs))) ;;;
  save_status ;;;
  (match failed_jobs with
   | [] => ret tt
   | _ :: _ => send_notification cfg failed_jobs
   end) ;;;
  end_time <- now ;;
  log INFO "Backup sync completed in {:.1f}s"
      [ADur (DurMeasured (end_time - start_time))] ;;;
  log INFO "Results: {} successful, {} failed"
      [ALen (length successful_jobs); ALen (length failed_jobs)] ;;;
  ret (Nat.eqb (length failed_jobs) 0).

(** *** Entry point *)

(** [BackupSync.__init__]; creating the log directory and installing the
    log handlers are taken to succeed. *)
Definition BackupSync_init : M Config :=
  cfg <- load_config ;;
  load_status ;;;
  ret cfg.

(** The [if __name__ == "__main__"] block. *)
Definition main : M unit :=
  cfg <- BackupSync_init ;;
  success <- run_all_jobs cfg ;;
  sys_exit (if success then 0 else 1).

End Engine.

(** ** The status dashboard: [web_server.py]

    The handler methods that read what the engine writes. The files and the
    socket are oracles again, asked with the events of the request so far. *)

Module Web.

(** [s.endswith(suffix)] *)
Fixpoint endswith (s suffix : string) : bool :=
  String.eqb s suffix
  || match s with
     | EmptyString => false
     | String _ s' => endswith s' suffix
     end.

(** [os.path.join(a, b)] of [posixpath]. *)
Definition os_path_join (a b : string) : string :=
  if String.prefix "/" b then b
  else if negb (PyStr.truthy a) || endswith a "/" then a +:+ b
  else a +:+ "/" +:+ b.

(** [l[-1]] *)
Definition list_item_last {A} (l : list A) : result A :=
  match last l with
  | Some x => Ret x
  | None => Raise index_error
  end.

(** [s.encode()]: UTF-8, one or two bytes for a code point below 256. *)
Definition encode_char (c : ascii) : list Byte.byte :=
  let n := N_of_ascii c in
  if (n <? 128)%N then [byte_of_ascii c]
  else [byte_of_ascii (ascii_of_N (192 + n / 64));
        byte_of_ascii (ascii_of_N (128 + n mod 64))].

Fixpoint encode (s : string) : list Byte.byte :=
  match s with
  | EmptyString => []
  | String c s' => encode_char c ++ encode s'
  end.

(** The calls on [BaseHTTPRequestHandler] and its output stream. *)
Inductive HttpCall :=
| SendError (code : Z) (message : option string)
| SendResponse (code : Z)
| SendHeader (keyword value : string)
| EndHeaders
| WriteBody (body : list Byte.byte).

Inductive WebEvent :=
| WExists (path : string) (found : bool)
| WOpen (path : string) (out : exception + string)
| WHttp (call : HttpCall) (out : option exception).

Record WebEnv := mkWebEnv {
  web_exists : list WebEvent -> string -> bool;
  web_open : list WebEvent -> string -> exception + string;
  web_http : list WebEvent -> HttpCall -> option exception
}.

(** Computations of a request: the events so far, and exceptions. *)
Definition W (A : Type) : Type := list WebEvent -> result A * list WebEvent.

Definition wret {A} (a : A) : W A := fun tr => (Ret a, tr).

Definition wbind {A B} (m : W A) (k : A -> W B) : W B :=
  fun tr => match m tr with
            | (Ret a, tr') => k a tr'
            | (Raise r, tr') => (Raise r, tr')
            end.

Definition wlift {A} (r : result A) : W A := fun tr => (r, tr).

Definition wtry {A} (body : W A) (handler : exception -> W A) : W A :=
  fun tr => match body tr with
            | (Raise (Exc e), tr') => handler e tr'
            | other => other
            end.

Notation "x <~ m ;; k" := (wbind m (fun x => k))
  (at level 100, m at next level, right associativity).
Notation "m ~;; k" := (wbind m (fun _ => k))
  (at level 100, right associativity).

Section Handler.

Variable env : WebEnv.

(** [os.path.exists(path)] *)
Definition path_exists (path : string) : W bool :=
  fun tr =>
    let found := web_exists env tr path in
    (Ret found, tr ++ [WExists path found]).

(** [with open(path, 'r') as f: f.read()] *)
Definition read_file (path : string) : W string :=
  fun tr =>
    let out := web_open env tr path in
    (match out with inl e => Raise (Exc e) | inr text => Ret text end,
     tr ++ [WOpen path out]).

(** One call on the handler or on [self.wfile]. *)
Definition http (call : HttpCall) : W unit :=
  fun tr =>
    let out := web_http env tr call in
    (match out with Some e => Raise (Exc e) | None => Ret tt end,
     tr ++ [WHttp call out]).

(** [BackupStatusHandler.serve_log_file], for the request path [path]. *)
Definition serve_log_file (path : string) : W unit :=
  wtry
    (filename <~ wlift (list_item_last (PyStr.split "/" path)) ;;
     let filepath := os_path_join "logs" filename in
     found <~ path_exists filepath ;;
     if negb found || negb (endswith filename ".log")
     then http (SendError 404 None)
     else
       content <~ read_file filepath ;;
       http (SendResponse 200) ~;;
       http (SendHeader "Content-type" "text/plain") ~;;
       http (SendHeader "Content-Length" (pretty (length (encode content)))) ~;;
       http EndHeaders ~;;
       http (WriteBody (encode content)))
    (fun e =>
       http (SendError 500 (Some ("Error reading log file: " +:+ exc_str e)))).

End Handler.

(** The files opened and the calls made during a stretch of a request. *)
Definition opened (evs : list WebEvent) : list string :=
  omap (fun ev => match ev with WOpen path _ => Some path | _ => None end) evs.

Definition http_calls (evs : list WebEvent) : list HttpCall :=
  omap (fun ev => match ev with WHttp call _ => Some call | _ => None end) evs.

(** A file system with two files and a socket that takes everything. *)
Definition sample_web : WebEnv :=
  mkWebEnv (fun _ path => String.eqb path "logs/sync_20250101.log"
                          || String.eqb path "logs/notes.txt")
           (fun _ _ => inr "2025-01-01 02:00:00 - INFO - Starting backup sync run")
           (fun _ _ => None).

End Web.

(** [BackupStatusHandler.load_status]: the dashboard's own loader. Both
    handlers return the same literal. *)
Definition web_load_status : M StatusDocument :=
  try_except
    read_status_file
    (fun e =>
       match exc_class e with
       | FileNotFoundError => ret (mkStatus ∅ None (Some 0) None)
       | _ => ret (mkStatus ∅ None (Some 0) None)
       end).

(** ** Vocabulary of the properties *)

(** The five labels with their keys, in the order of the [elif] chain. *)
Definition stat_labels : list (string * string) :=
  [ ("Number of files:", "total_files");
    ("Number of created files:", "created_files");
    ("Number of deleted files:", "deleted_files");
    ("Total transferred file size:", "transferred_size");
    ("Total file size:", "total_size") ].

(** The key a line is recorded under: that of the first label, in the order
    above, occurring anywhere in the line. *)
Definition line_key (line : string) : option string :=
  snd <$> find (fun lk => PyStr.contains (fst lk) line) stat_labels.

(** What [line.split(':')[1].strip()] yields on a line holding a colon: the
    text between its first colon and the next one (or the end of the line),
    trimmed. *)
Definition line_value (line : string) : string :=
  PyStr.strip
    (PyStr.before_first PyStr.colon (PyStr.after_first PyStr.colon line)).

(** One line of the loop, in terms of [line_key] and [line_value]. *)
Definition record_line (stats : gmap string string) (line : string)
  : gmap string string :=
  match line_key line with
  | Some key => <[key := line_value line]> stats
  | None => stats
  end.


Definition spec_line_value (line : string) : string :=
  PyStr.strip (PyStr.after_first PyStr.colon line).


(** The first event of [run_rsync]: the "Starting sync" log line. *)
Definition start_event (cfg : Config) (job : JobSpec) : Event :=
  EvLog INFO "Starting sync for {}: {}"
        [AStr (job_name job); AStr (PyStr.join " " (build_cmd cfg job))].

(** What the child process of [job] does when [run_rsync] is entered in
    state [s]: the environment's answer to the [subprocess.run] call. *)
Definition child_outcome (env : Env) (cfg : Config) (job : JobSpec) (s : State)
  : exception + CompletedProcess :=
  env_run env (trace s ++ [start_event cfg job]) (build_cmd cfg job) 3600.

(** The instant read as [start_time] by [run_rsync] entered in state [s]. *)
Definition child_start (env : Env) (cfg : Config) (job : JobSpec) (s : State)
  : datetime :=
  env_now env (trace s ++ [start_event cfg job]).

(** A child process that ran to its end and exited with status 0. *)
Definition outcome_ok (out : exception + CompletedProcess) : bool :=
  match out with
  | inr p => returncode p =? 0
  | inl _ => false
  end.

(** The child processes started in a stretch of the trace, in order: the
    command line and what became of it. *)
Definition runs (evs : list Event)
  : list (list string * (exception + CompletedProcess)) :=
  omap (fun ev => match ev with
                  | EvRun cmd _ out => Some (cmd, out)
                  | _ => None
                  end) evs.

(** The mails handed to the relay in a stretch of the trace. *)
Definition mails (evs : list Event) : list Mail :=
  omap (fun ev => match ev with
                  | EvSmtp (SmtpSendMessage msg) _ => Some msg
                  | _ => None
                  end) evs.

(** The documents written (or attempted) in a stretch of the trace. *)
Definition writes (evs : list Event) : list (StatusDocument * WriteOutcome) :=
  omap (fun ev => match ev with
                  | EvWriteStatus doc out => Some (doc, out)
                  | _ => None
                  end) evs.

(** The calls on the mail relay in a stretch of the trace. *)
Definition smtp_calls (evs : list Event) : list SmtpAction :=
  omap (fun ev => match ev with
                  | EvSmtp act _ => Some act
                  | _ => None
                  end) evs.

(** The log lines of a given level in a stretch of the trace. *)
Definition logged (lvl : Level) (evs : list Event) : list string :=
  omap (fun ev => match ev, lvl with
                  | EvLog INFO fmt _, INFO
                  | EvLog WARNING fmt _, WARNING
                  | EvLog ERROR fmt _, ERROR => Some fmt
                  | _, _ => None
                  end) evs.

(** Sample data: one enabled job, one disabled job, default settings. *)
Definition docs_job : JobSpec :=
  mkJob "docs" "/srv/docs/" "backup@vault:/backup/docs/" (Some ["*.tmp"]) None.
Definition photos_job : JobSpec :=
  mkJob "photos" "/srv/photos/" "backup@vault:/backup/photos/" None (Some false).
Definition sample_cfg : Config :=
  mkConfig (Some (mkSettings None None None)) [docs_job; photos_job].
Definition sample_clock (tr : list Event) : datetime :=
  Z.of_nat (length tr) * 1000000.

(** A never-run system: no status file yet. *)
Definition fresh_state : State :=
  mkState empty_status Absent (Holds sample_cfg) [].

(** An environment whose child processes all run into the timeout. *)
Definition env_timeout : Env :=
  mkEnv sample_clock
        (fun _ _ _ => inl (mkExc TimeoutExpired "Command timed out after 3600 seconds"))
        (fun _ _ => Written)
        (fun _ _ => None).

(** An environment without the rsync executable. *)
Definition env_no_rsync : Env :=
  mkEnv sample_clock
        (fun _ _ _ => inl (mkExc FileNotFoundError
                             "[Errno 2] No such file or directory: 'rsync'"))
        (fun _ _ => Written)
        (fun _ _ => None).

(** An environment whose child processes all exit with status 0. *)
Definition env_ok : Env :=
  mkEnv sample_clock
        (fun _ _ _ => inr (mkCompleted 0 ("Number of files: 3" +:+ nl) ""))
        (fun _ _ => Written)
        (fun _ _ => None).

(** The jobs of a batch: the enabled entries, in configuration order. *)
Definition enabled_jobs (todo : list JobSpec) : list JobSpec :=
  List.filter is_enabled todo.

(** [r] is a RunResult of [job]. *)
Definition result_of (job : JobSpec) (r : RunResult) : Prop :=
  rr_name r = job_name job
  /\ rr_source r = job_source job
  /\ rr_destination r = job_destination job.

(** [run] is the child process of [job]. *)
Definition run_of (cfg : Config) (job : JobSpec)
           (run : list string * (exception + CompletedProcess)) : Prop :=
  fst run = build_cmd cfg job.

(** [r] records how [run] ended. *)
Definition records (r : RunResult)
           (run : list string * (exception + CompletedProcess)) : Prop :=
  rr_success r = outcome_ok (snd run).

(** The successful and the failed results among [rs], in order. *)
Definition succeeded (rs : list RunResult) : list RunResult :=
  List.filter rr_success rs.
Definition failures (rs : list RunResult) : list RunResult :=
  List.filter (fun r => negb (rr_success r)) rs.

(** The recipient address is unset: [not notification_config.get('email')]. *)
Definition email_unset (cfg : Config) : Prop :=
  PyStr.truthy (default "" (email (notification_of cfg))) = false.

(** The same environment with another mail relay. *)
Definition with_smtp (env : Env)
           (relay : list Event -> SmtpAction -> option exception) : Env :=
  mkEnv (env_now env) (env_run env) (env_write env) relay.

(** [n] batches run one after the other on the same [BackupSync] object. *)
Fixpoint batches (env : Env) (cfg : Config) (n : nat) (s : State) : State :=
  match n with
  | O => s
  | S k => snd (run_all_jobs env cfg (batches env cfg k s))
  end.

(** Sample data with notification settings, an SSH identity and an option
    string of its own. *)
Definition mail_settings : Notification :=
  mkNotification (Some "smtp.example.org") (Some 587)
                 (Some "backup@example.org") (Some "secret")
                 (Some "ops@example.org").
Definition mail_cfg : Config :=
  mkConfig (Some (mkSettings (Some "/root/.ssh/id_backup")
                             (Some " -az   --stats ") (Some mail_settings)))
           [photos_job; docs_job].
Definition mail_state : State :=
  mkState empty_status Absent (Holds mail_cfg) [].

(** An environment where jobs time out and the mail relay refuses
    connections. *)
Definition env_relay_down : Env :=
  with_smtp env_timeout
    (fun _ act =>
       match act with
       | SmtpConnect _ _ =>
           Some (mkExc OtherException "[Errno 111] Connection refused")
       | _ => None
       end).

(** A system whose status file does not decode. *)
Definition corrupt_state : State :=
  mkState empty_status
          (Unreadable (mkExc OtherException
                         "Expecting value: line 1 column 1 (char 0)"))
          (Holds sample_cfg) [].

(** [n] runs of the program, one process after the other, on the same files;
    each process builds its own [BackupSync] object, whose status is set by
    [load_status] before it is used. *)
Fixpoint processes (env : Env) (n : nat) (s : State) : State :=
  match n with
  | O => s
  | S k => snd (main env (processes env k s))
  end.

(** A file system on which every write of the status file goes through. *)
Definition reliable_writes (env : Env) : Prop :=
  forall tr doc, env_write env tr doc = Written.

(** The document [load_status] installs for a given status file. *)
Definition loaded_document (f : FileState StatusDocument) : StatusDocument :=
  match f with
  | Holds doc => doc
  | Absent | Unreadable _ => empty_status
  end.

(** ** Vocabulary of the further properties *)

(** The same environment with another outcome of the status writes. *)
Definition with_write (env : Env)
           (disk : list Event -> StatusDocument -> WriteOutcome) : Env :=
  mkEnv (env_now env) (env_run env) disk (env_smtp env).

(** A mail relay that accepts every call. *)
Definition relay_up (env : Env) : Prop :=
  forall tr act, env_smtp env tr act = None.

(** The calls on the mail relay with what became of them. *)
Definition smtp_log (evs : list Event) : list (SmtpAction * option exception) :=
  omap (fun ev => match ev with
                  | EvSmtp act out => Some (act, out)
                  | _ => None
                  end) evs.

(** What the loop of a batch may emit: INFO lines, ERROR lines other than
    the notifier's and the status store's, and child processes. *)
Definition job_event (ev : Event) : Prop :=
  match ev with
  | EvLog INFO _ _ => True
  | EvLog ERROR fmt _ =>
      fmt <> "Failed to send notification email: {}"
      /\ fmt <> "Failed to save status: {}"
  | EvRun _ t _ => t = 3600
  | _ => False
  end.

(** The entries of the [jobs] mapping after recording [rs] in order. *)
Definition record_results (rs : list RunResult)
           (m : gmap string RunResult) : gmap string RunResult :=
  fold_left (fun m r => <[rr_name r := r]> m) rs m.

(** The status document as [run_all_jobs] leaves it: batch start, counter
    and summary set on the document [d] the loop left. *)
Definition batch_document (start_time : datetime)
           (rs : list RunResult) (d : StatusDocument) : StatusDocument :=
  set_last_summary
    (mkSummary (length (succeeded rs)) (length (failures rs))
               (length (succeeded rs) + length (failures rs)))
    (set_total_runs (default 0 (total_runs d) + 1)
                    (set_last_run start_time d)).

(** The session [send_notification] runs with the relay for the settings of
    [cfg], absent settings standing for themselves as empty. *)
Definition notification_mail (cfg : Config) (failed_jobs : list RunResult)
  : Mail :=
  mkMail (default "" (smtp_user (notification_of cfg)))
         (default "" (email (notification_of cfg)))
         (compose_subject failed_jobs) (compose_body failed_jobs).

Definition smtp_protocol (cfg : Config) (failed_jobs : list RunResult)
  : list SmtpAction :=
  [ SmtpConnect (default "" (smtp_server (notification_of cfg)))
                (default 0 (smtp_port (notification_of cfg)));
    SmtpStartTls;
    SmtpLogin (default "" (smtp_user (notification_of cfg)))
              (default "" (smtp_pass (notification_of cfg)));
    SmtpSendMessage (notification_mail cfg failed_jobs);
    SmtpQuit ].

(** Every character of [s] satisfies [p]. *)
Fixpoint all_chars (p : ascii -> bool) (s : string) : bool :=
  match s with
  | EmptyString => true
  | String c s' => p c && all_chars p s'
  end.

(** The text without its whitespace characters. *)
Fixpoint non_space (s : string) : string :=
  match s with
  | EmptyString => EmptyString
  | String c s' =>
      if PyStr.isspace c then non_space s' else String c (non_space s')
  end.

(** A token of a command line: not empty, no whitespace inside. *)
Definition is_token (s : string) : Prop :=
  s <> "" /\ all_chars (fun c => negb (PyStr.isspace c)) s = true.

(** The first and the last character of a string, if any. *)
Definition first_char (s : string) : option ascii :=
  match s with
  | EmptyString => None
  | String c _ => Some c
  end.
Fixpoint last_char (s : string) : option ascii :=
  match s with
  | EmptyString => None
  | String c EmptyString => Some c
  | String _ s' => last_char s'
  end.

(** A stored statistic: trimmed, within one line, without a colon. *)
Definition clean_value (v : string) : Prop :=
  PyStr.has_char PyStr.colon v = false
  /\ PyStr.has_char PyStr.newline v = false
  /\ (forall c, first_char v = Some c -> PyStr.isspace c = false)
  /\ (forall c, last_char v = Some c -> PyStr.isspace c = false).

(** Sample systems for the further properties. *)

(** No configuration file. *)
Definition unconfigured_state : State :=
  mkState empty_status Absent Absent [].

(** A status file that cannot be opened for writing. *)
Definition env_read_only : Env :=
  with_write env_ok
    (fun _ _ => OpenFailed (mkExc OtherException
                              "[Errno 13] Permission denied: 'status.json'")).

(** Child processes that end with status 23 and a message on stderr. *)
Definition env_partial : Env :=
  mkEnv sample_clock
        (fun _ _ _ => inr (mkCompleted 23 "" "rsync error: some files could not be transferred"))
        (fun _ _ => Written)
        (fun _ _ => None).

(** A status document with one earlier result. *)
Definition earlier_result : RunResult :=
  mkRunResult "music" "/srv/music/" "backup@vault:/backup/music/" 0
              (DurMeasured 2500000) true 0 None ∅ "" "".
Definition earlier_status : StatusDocument :=
  mkStatus {[ "music" := earlier_result ]} (Some 0) (Some 7)
           (Some (mkSummary 1 0 1)).
Definition earlier_state : State :=
  mkState earlier_status (Holds earlier_status) (Holds sample_cfg) [].

(** A configuration whose jobs are all disabled. *)
Definition idle_cfg : Config :=
  mkConfig None [photos_job].

(** Notification settings without a password. *)
Definition no_pass_cfg : Config :=
  mkConfig (Some (mkSettings None None
                    (Some (mkNotification (Some "smtp.example.org") (Some 587)
                                          (Some "backup@example.org") None
                                          (Some "ops@example.org")))))
           [docs_job].

(** Notification settings with a recipient only. *)
Definition recipient_only_cfg : Config :=
  mkConfig (Some (mkSettings None None
                    (Some (mkNotification None None None None
                                          (Some "ops@example.org")))))
           [docs_job].

(** A failed result to notify about. *)
Definition timed_out_result : RunResult :=
  mkRunResult "docs" "/srv/docs/" "backup@vault:/backup/docs/" 1000000
              (DurSeconds 3600) false (-1) (Some "Timeout after 1 hour")
              ∅ "" "Process timed out".

(** * Properties *)

(** ** Strings *)

Module PyStrFacts.
Import PyStr.

Lemma split_nonempty sep s : split sep s <> [].
Proof.
  destruct s as [|a s]; simpl; [discriminate|].
  destruct (Ascii.eqb a sep); [discriminate|].
  destruct (split sep s); discriminate.
Qed.

Lemma split_head sep s :
  exists rest, split sep s = before_first sep s :: rest.
Proof.
  induction s as [|a s [rest IH]]; simpl.
  - eauto.
  - destruct (Ascii.eqb a sep); [eauto|].
    rewrite IH. eauto.
Qed.

(** With a separator in the line, item 1 of the split exists and is the
    text between the first separator and the next one. *)
Lemma split_second sep s :
  has_char sep s = true ->
  split sep s !! 1%nat = Some (before_first sep (after_first sep s)).
Proof.
  induction s as [|a s IH]; simpl; [discriminate|].
  destruct (Ascii.eqb a sep) eqn:E; simpl.
  - intros _. destruct (split_head sep s) as [rest ->]. reflexivity.
  - intros H. specialize (IH H).
    destruct (split sep s) as [|p rest]; [discriminate|]. exact IH.
Qed.

Lemma split_no_sep sep s :
  has_char sep s = false -> split sep s = [s].
Proof.
  induction s as [|a s IH]; simpl; [reflexivity|].
  destruct (Ascii.eqb a sep); simpl; [discriminate|].
  intros H. rewrite (IH H). reflexivity.
Qed.

Lemma prefix_has_char c sub s :
  String.prefix sub s = true -> has_char c sub = true -> has_char c s = true.
Proof.
  revert s. induction sub as [|a sub IH]; intros s; simpl; [discriminate|].
  destruct s as [|b s]; simpl; [discriminate|].
  destruct (ascii_dec a b) as [->|]; [|discriminate].
  intros Hp Hc. simpl.
  destruct (Ascii.eqb b c); simpl in *; [reflexivity|]. eauto.
Qed.

Lemma contains_has_char c sub s :
  contains sub s = true -> has_char c sub = true -> has_char c s = true.
Proof.
  induction s as [|a s IH]; intros H Hc.
  - destruct sub; simpl in *; discriminate.
  - cbn [contains] in H. apply orb_true_iff in H as [H|H].
    + apply (prefix_has_char c) in H; [exact H|exact Hc].
    + simpl. rewrite (IH H Hc). apply orb_true_r.
Qed.

End PyStrFacts.

(** ** StatsParser *)

Section StatsParser.
Import PyStr PyStrFacts.

(** A line holding a label holds a colon, so [split(':')[1]] exists. *)
Lemma colon_field_of_label label line :
  has_char colon label = true ->
  contains label line = true ->
  colon_field line = Ret (line_value line).
Proof.
  intros Hl Hc. unfold colon_field, list_item.
  rewrite (split_second colon line (contains_has_char _ _ _ Hc Hl)).
  reflexivity.
Qed.

Lemma parse_line_record stats line :
  parse_line stats line = Ret (record_line stats line).
Proof.
  unfold parse_line, record_line, line_key, stat_labels. cbn [find fst snd].
  repeat match goal with
    | |- context [if contains ?l line then _ else _] =>
        let E := fresh "E" in
        destruct (contains l line) eqn:E;
        [ rewrite (colon_field_of_label l line eq_refl E); reflexivity | ]
    end.
  reflexivity.
Qed.

Lemma parse_lines_fold lines stats :
  parse_lines lines stats = Ret (fold_left record_line lines stats).
Proof.
  revert stats. induction lines as [|l ls IH]; intros stats; simpl.
  - reflexivity.
  - rewrite parse_line_record. simpl. apply IH.
Qed.

(** What a fold of [record_line] holds under a key: the value of the last
    line recorded under it. *)
Lemma fold_record_lookup lines key v :
  fold_left record_line lines ∅ !! key = Some v <->
  exists before line after,
    lines = before ++ line :: after
    /\ line_key line = Some key
    /\ v = line_value line
    /\ Forall (fun l => line_key l <> Some key) after.
Proof.
  induction lines as [|l ls IH] using rev_ind.
  - simpl. rewrite lookup_empty. split; [discriminate|].
    intros (b & x & a & H & _). destruct b; discriminate.
  - rewrite fold_left_app. simpl. unfold record_line at 1.
    destruct (line_key l) as [k|] eqn:Ek.
    + destruct (decide (k = key)) as [->|Hne].
      * rewrite lookup_insert_eq. split.
        -- intros [= <-]. exists ls, l, []. repeat split; auto.
        -- intros (b & x & a & H & Hk & -> & Hall).
           destruct a as [|y a _] using rev_ind.
           ++ apply app_inj_tail in H as [_ ->]. reflexivity.
           ++ rewrite app_comm_cons, app_assoc in H.
              apply app_inj_tail in H as [_ ->].
              apply Forall_app in Hall as [_ Hy].
              inversion Hy; subst. congruence.
      * rewrite lookup_insert_ne by exact Hne. rewrite IH. split.
        -- intros (b & x & a & -> & Hk & -> & Hall).
           exists b, x, (a ++ [l]). rewrite <- app_assoc. simpl.
           repeat split; auto. apply Forall_app. split; [exact Hall|].
           constructor; [congruence|constructor].
        -- intros (b & x & a & H & Hk & -> & Hall).
           destruct a as [|y a _] using rev_ind.
           ++ apply app_inj_tail in H as [_ ->]. congruence.
           ++ rewrite app_comm_cons, app_assoc in H.
              apply app_inj_tail in H as [-> ->].
              apply Forall_app in Hall as [Ha _].
              exists b, x, a. repeat split; auto.
    + rewrite IH. split.
      * intros (b & x & a & -> & Hk & -> & Hall).
        exists b, x, (a ++ [l]). rewrite <- app_assoc. simpl.
        repeat split; auto. apply Forall_app. split; [exact Hall|].
        constructor; [congruence|constructor].
      * intros (b & x & a & H & Hk & -> & Hall).
        destruct a as [|y a _] using rev_ind.
        -- apply app_inj_tail in H as [_ ->]. congruence.
        -- rewrite app_comm_cons, app_assoc in H.
           apply app_inj_tail in H as [-> ->].
           apply Forall_app in Hall as [Ha _].
           exists b, x, a. repeat split; auto.
Qed.


End StatsParser.




Definition rsync31_line : string := "Number of files: 5 (reg: 4, dir: 1)".

(** The slip of [line.split(':')[1]]: on a line with a second colon, as rsync
    3.1 and later print for the file counts, the value is cut at that
    colon. *)
Example second_colon_cuts_value :
  parse_rsync_stats rsync31_line = Ret {[ "total_files" := "5 (reg" ]}
  /\ spec_line_value rsync31_line = "5 (reg: 4, dir: 1)".
Proof. split; vm_compute; reflexivity. Qed.



(** ** Stepping through computations *)

Ltac unfold_m :=
  unfold log, now, modify_status, sys_exit, subprocess_run, smtp,
    read_status_file, write_status_file, read_config_file;
  unfold bind, try_except, ret, raise, lift, gets, modify;
  cbn [emit trace status status_file config_file with_status
       with_status_file fst snd].

Lemma omap_snoc {A B} (f : A -> option B) (l : list A) (x : A) :
  omap f (l ++ [x]) = omap f l ++ match f x with Some y => [y] | None => [] end.
Proof. rewrite omap_app. simpl. destruct (f x); reflexivity. Qed.

Lemma runs_app (l1 l2 : list Event) : runs (l1 ++ l2) = runs l1 ++ runs l2.
Proof. apply omap_app. Qed.

Lemma writes_app (l1 l2 : list Event) :
  writes (l1 ++ l2) = writes l1 ++ writes l2.
Proof. apply omap_app. Qed.

Lemma mails_app (l1 l2 : list Event) : mails (l1 ++ l2) = mails l1 ++ mails l2.
Proof. apply omap_app. Qed.

(** ** JobRunner *)

Section JobRunner.

Variable env : Env.
Variable cfg : Config.

(** C2: when the child process of a job exceeds the 3600-second timeout
    ([subprocess.run] raises [TimeoutExpired]), [run_rsync] returns a
    RunResult with success=false, return_code=-1,
    error="Timeout after 1 hour", duration=3600 (the timeout value) and an
    empty stats mapping; it is also the entry stored for the job. *)
Theorem run_rsync_timeout (job : JobSpec) (s : State) (e : exception) :
  child_outcome env cfg job s = inl e ->
  exc_class e = TimeoutExpired ->
  exists r s',
    run_rsync env cfg job s = (Ret r, s')
    /\ rr_success r = false
    /\ rr_return_code r = -1
    /\ rr_error r = Some "Timeout after 1 hour"
    /\ rr_duration r = DurSeconds 3600
    /\ rr_stats r = ∅
    /\ jobs (status s') !! job_name job = Some r
    /\ runs (trace s') = runs (trace s) ++ [(build_cmd cfg job, inl e)].
Proof.
  intros Hout Hcls. unfold child_outcome, start_event in Hout.
  unfold run_rsync. unfold_m.
  rewrite Hout, Hcls. cbn.
  eexists _, _. split; [reflexivity|]. cbn.
  repeat split; try reflexivity.
  - apply lookup_insert_eq.
  - unfold runs. rewrite !omap_snoc. cbn. rewrite !app_nil_r. reflexivity.
Qed.

(** C7: when the child-process invocation raises anything other than a
    timeout (for instance the executable is not found), [run_rsync]
    returns a RunResult with success=false, return_code=-1, error set to
    the description of the failure and duration=0, whatever the clock
    says. *)
Theorem run_rsync_failure (job : JobSpec) (s : State) (e : exception) :
  child_outcome env cfg job s = inl e ->
  exc_class e <> TimeoutExpired ->
  exists r s',
    run_rsync env cfg job s = (Ret r, s')
    /\ rr_success r = false
    /\ rr_return_code r = -1
    /\ rr_error r = Some (exc_str e)
    /\ rr_duration r = DurSeconds 0
    /\ jobs (status s') !! job_name job = Some r
    /\ runs (trace s') = runs (trace s) ++ [(build_cmd cfg job, inl e)].
Proof.
  intros Hout Hcls. unfold child_outcome, start_event in Hout.
  unfold run_rsync. unfold_m.
  rewrite Hout. cbn.
  destruct (exc_class e) eqn:E; try congruence;
    (eexists _, _; split; [reflexivity|]; cbn;
     repeat split; try reflexivity;
     [ apply lookup_insert_eq
     | unfold runs; rewrite !omap_snoc; cbn; rewrite !app_nil_r; reflexivity ]).
Qed.

End JobRunner.

Lemma run_rsync_timeout_witness :
  exists r s',
    run_rsync env_timeout sample_cfg docs_job fresh_state = (Ret r, s')
    /\ rr_success r = false
    /\ rr_return_code r = -1
    /\ rr_error r = Some "Timeout after 1 hour"
    /\ rr_duration r = DurSeconds 3600
    /\ rr_stats r = ∅
    /\ jobs (status s') !! job_name docs_job = Some r
    /\ runs (trace s')
       = runs (trace fresh_state)
         ++ [(build_cmd sample_cfg docs_job,
              inl (mkExc TimeoutExpired "Command timed out after 3600 seconds"))].
Proof.
  apply (run_rsync_timeout env_timeout sample_cfg docs_job fresh_state
           (mkExc TimeoutExpired "Command timed out after 3600 seconds"));
    reflexivity.
Defined.

Lemma run_rsync_failure_witness :
  exists r s',
    run_rsync env_no_rsync sample_cfg docs_job fresh_state = (Ret r, s')
    /\ rr_success r = false
    /\ rr_return_code r = -1
    /\ rr_error r = Some "[Errno 2] No such file or directory: 'rsync'"
    /\ rr_duration r = DurSeconds 0
    /\ jobs (status s') !! job_name docs_job = Some r
    /\ runs (trace s')
       = runs (trace fresh_state)
         ++ [(build_cmd sample_cfg docs_job,
              inl (mkExc FileNotFoundError
                     "[Errno 2] No such file or directory: 'rsync'"))].
Proof.
  apply (run_rsync_failure env_no_rsync sample_cfg docs_job fresh_state
           (mkExc FileNotFoundError
              "[Errno 2] No such file or directory: 'rsync'"));
    [reflexivity | discriminate].
Defined.

(** ** StatusStore *)

Section StatusStore.

Variable env : Env.

(** [save_status] never raises and leaves [self.status] alone; it makes
    one write attempt, with the document in memory. *)
Lemma save_status_spec (s : State) :
  exists s' evs,
    save_status env s = (Ret tt, s')
    /\ status s' = status s
    /\ config_file s' = config_file s
    /\ trace s' = trace s ++ evs
    /\ writes evs = [(status s, env_write env (trace s) (status s))]
    /\ runs evs = []
    /\ mails evs = []
    /\ (env_write env (trace s) (status s) = Written ->
        status_file s' = Holds (status s)).
Proof.
  unfold save_status. unfold_m.
  destruct (env_write env (trace s) (status s)) as [|e|e] eqn:E;
    cbn [emit trace status status_file config_file with_status_file];
    eexists _, _; (split; [reflexivity|]);
    cbn [emit trace status status_file config_file with_status_file];
    rewrite <- ?app_assoc;
    repeat split; try reflexivity; try discriminate.
Qed.

(** C9: when the status file is missing or cannot be read (opening or
    decoding it raises), [load_status] returns normally, without raising,
    and [self.status] is the empty default
    {jobs: {}, last_run: null, total_runs: 0}. *)
Theorem load_status_fallback (s : State) :
  status_file s = Absent \/ (exists e, status_file s = Unreadable e) ->
  exists s',
    load_status env s = (Ret tt, s')
    /\ status s' = mkStatus ∅ None (Some 0) None.
Proof.
  intros [H | [e H]]; unfold load_status; unfold_m; rewrite H;
    cbn [exc_class].
  - destruct (save_status_spec (with_status empty_status (emit EvReadStatus s)))
      as (s' & evs & Hs & Hst & _).
    change (mkState empty_status (status_file s) (config_file s)
                    (trace s ++ [EvReadStatus]))
      with (with_status empty_status (emit EvReadStatus s)).
    rewrite Hs. eexists. split; [reflexivity|]. rewrite Hst. reflexivity.
  - destruct (exc_class e).
    2-5: eexists; split; reflexivity.
    destruct (save_status_spec (with_status empty_status (emit EvReadStatus s)))
      as (s' & evs & Hs & Hst & _).
    change (mkState empty_status (status_file s) (config_file s)
                    (trace s ++ [EvReadStatus]))
      with (with_status empty_status (emit EvReadStatus s)).
    rewrite Hs. eexists. split; [reflexivity|]. rewrite Hst. reflexivity.
Qed.

End StatusStore.

Lemma load_status_fallback_witness :
  exists s',
    load_status env_ok fresh_state = (Ret tt, s')
    /\ status s' = mkStatus ∅ None (Some 0) None.
Proof.
  apply (load_status_fallback env_ok fresh_state). left. reflexivity.
Defined.

(** C10: [load_status] on an absent status file (FileNotFoundError) does
    more than install the empty default in memory: through [save_status] it
    at once writes that default document to the status file, which holds it
    from then on when the write goes through; on any other read failure the
    default is installed and nothing is written, the file staying as it
    was. *)
Theorem load_status_write_effect (env : Env) (s : State) :
  exists s' evs,
    load_status env s = (Ret tt, s')
    /\ trace s' = trace s ++ evs
    /\ (status_file s = Absent ->
        status s' = empty_status
        /\ writes evs
           = [(empty_status,
               env_write env (trace s ++ [EvReadStatus]) empty_status)]
        /\ (env_write env (trace s ++ [EvReadStatus]) empty_status = Written ->
            status_file s' = Holds empty_status))
    /\ (forall e,
          status_file s = Unreadable e ->
          exc_class e <> FileNotFoundError ->
          status s' = empty_status
          /\ writes evs = []
          /\ status_file s' = status_file s).
Proof.
  unfold load_status, save_status. unfold_m.
  destruct (status_file s) as [|doc|e] eqn:Hf; cbn [exc_class]; unfold_m.
  - destruct (env_write env (trace s ++ [EvReadStatus]) empty_status) eqn:Hw;
      rewrite ?Hw; unfold_m; eexists _, _; (split; [reflexivity|]); unfold_m;
      rewrite <- ?app_assoc;
      (split; [reflexivity|]); (split; [|discriminate]);
      intros _; repeat split; try reflexivity; discriminate.
  - eexists _, _; (split; [reflexivity|]); unfold_m.
    split; [reflexivity|]. split; [discriminate|]. discriminate.
  - destruct (exc_class e) eqn:Hc; unfold_m.
    + destruct (env_write env (trace s ++ [EvReadStatus]) empty_status) eqn:Hw;
        rewrite ?Hw; unfold_m; eexists _, _; (split; [reflexivity|]); unfold_m;
        rewrite <- ?app_assoc;
        (split; [reflexivity|]); (split; [discriminate|]);
        intros e' [= <-] Hne; congruence.
    + eexists _, _; (split; [reflexivity|]); unfold_m; rewrite <- ?app_assoc.
      split; [reflexivity|]. split; [discriminate|].
      intros e' _ _. repeat split; try reflexivity. exact Hf.
    + eexists _, _; (split; [reflexivity|]); unfold_m; rewrite <- ?app_assoc.
      split; [reflexivity|]. split; [discriminate|].
      intros e' _ _. repeat split; try reflexivity. exact Hf.
    + eexists _, _; (split; [reflexivity|]); unfold_m; rewrite <- ?app_assoc.
      split; [reflexivity|]. split; [discriminate|].
      intros e' _ _. repeat split; try reflexivity. exact Hf.
    + eexists _, _; (split; [reflexivity|]); unfold_m; rewrite <- ?app_assoc.
      split; [reflexivity|]. split; [discriminate|].
      intros e' _ _. repeat split; try reflexivity. exact Hf.
Qed.

(** ** Notifier *)

Ltac step_smtp :=
  match goal with
  | |- context [match env_smtp ?e ?t ?a with _ => _ end] =>
      let E := fresh "Hsmtp" in
      destruct (env_smtp e t a) eqn:E; rewrite ?E; unfold_m
  end.

Ltac close_notify :=
  eexists _, _; (split; [reflexivity|]); unfold_m; rewrite <- ?app_assoc;
  repeat split; try reflexivity; try discriminate;
  try (intros;
       repeat match goal with
         | H : _ ∈ mails _ |- _ => cbn in H
         | H : _ ∈ [] |- _ => solve [inversion H]
         | H : _ ∈ _ :: _ |- _ => apply elem_of_cons in H as [->|H]
         end; reflexivity).

(** [send_notification] always returns; it touches neither the status nor
    the status file, starts no process, and any mail it hands over is the
    one composed from its argument. *)
Lemma send_notification_spec (env : Env) (cfg : Config)
      (failed_jobs : list RunResult) (s : State) :
  exists s' evs,
    send_notification env cfg failed_jobs s = (Ret tt, s')
    /\ status s' = status s
    /\ status_file s' = status_file s
    /\ config_file s' = config_file s
    /\ trace s' = trace s ++ evs
    /\ runs evs = []
    /\ writes evs = []
    /\ (forall m, m ∈ mails evs ->
          mail_subject m = compose_subject failed_jobs
          /\ mail_body m = compose_body failed_jobs)
    /\ (failed_jobs = [] -> evs = [])
    /\ (failed_jobs <> [] -> email_unset cfg ->
        evs = [EvLog WARNING
                 "No email configuration found, skipping notification" []]).
Proof.
  unfold send_notification, email_unset. destruct failed_jobs as [|r0 rest].
  { exists s, []. rewrite app_nil_r.
    repeat split; try reflexivity; try congruence;
      intros; match goal with H : _ ∈ _ |- _ => inversion H end. }
  set (failed := r0 :: rest). unfold dict_item.
  destruct (PyStr.truthy (default "" (email (notification_of cfg)))) eqn:Hem;
    cbn [negb]; unfold_m; [|close_notify].
  destruct (smtp_user (notification_of cfg)) as [user|]; unfold_m;
    [|close_notify].
  destruct (email (notification_of cfg)) as [to|]; [|discriminate]. unfold_m.
  destruct (smtp_server (notification_of cfg)) as [host|]; unfold_m;
    [|close_notify].
  destruct (smtp_port (notification_of cfg)) as [port|]; unfold_m;
    [|close_notify].
  step_smtp; [close_notify|].
  step_smtp; [close_notify|].
  destruct (smtp_pass (notification_of cfg)) as [pass|]; unfold_m;
    [|close_notify].
  step_smtp; [close_notify|].
  step_smtp; [close_notify|].
  step_smtp; close_notify.
Qed.

(** ** Orchestrator *)

Lemma bind_ret_eq {A B} (m : M A) (k : A -> M B) (s s' : State) (a : A) :
  m s = (Ret a, s') -> bind m k s = k a s'.
Proof. intros H. unfold bind. rewrite H. reflexivity. Qed.

Section Orchestrator.

Variable env : Env.
Variable cfg : Config.

(** [run_rsync] always returns a RunResult of its job, stores it under the
    job's name, and starts exactly one child process. *)
Lemma run_rsync_spec (job : JobSpec) (s : State) :
  exists r s' evs,
    run_rsync env cfg job s = (Ret r, s')
    /\ result_of job r
    /\ rr_success r = outcome_ok (child_outcome env cfg job s)
    /\ status s' = set_job (job_name job) r (status s)
    /\ status_file s' = status_file s
    /\ config_file s' = config_file s
    /\ trace s' = trace s ++ evs
    /\ runs evs = [(build_cmd cfg job, child_outcome env cfg job s)]
    /\ writes evs = []
    /\ mails evs = [].
Proof.
  unfold run_rsync, child_outcome, start_event, result_of. unfold_m.
  destruct (env_run env _ _ _) as [e|p] eqn:Hout; unfold_m.
  - destruct (exc_class e); unfold_m;
      eexists _, _, _; (split; [reflexivity|]); unfold_m;
      rewrite <- ?app_assoc; repeat split; reflexivity.
  - unfold parse_rsync_stats. rewrite parse_lines_fold.
    destruct (returncode p =? 0) eqn:Hrc; unfold_m;
      eexists _, _, _; (split; [reflexivity|]); unfold_m;
      rewrite <- ?app_assoc; cbn [rr_success outcome_ok];
      repeat split; try reflexivity; rewrite ?Hrc; reflexivity.
Qed.

(** The loop runs the enabled jobs in order, one child process each, and
    sorts their results into the two accumulators. *)
Lemma run_jobs_loop_spec (todo : list JobSpec) :
  forall (successful_jobs failed_jobs : list RunResult) (s : State),
  exists rs s' evs,
    run_jobs_loop env cfg todo successful_jobs failed_jobs s
    = (Ret (successful_jobs ++ succeeded rs, failed_jobs ++ failures rs), s')
    /\ Forall2 result_of (enabled_jobs todo) rs
    /\ Forall2 (run_of cfg) (enabled_jobs todo) (runs evs)
    /\ Forall2 records rs (runs evs)
    /\ last_run (status s') = last_run (status s)
    /\ total_runs (status s') = total_runs (status s)
    /\ last_summary (status s') = last_summary (status s)
    /\ status_file s' = status_file s
    /\ config_file s' = config_file s
    /\ trace s' = trace s ++ evs
    /\ writes evs = []
    /\ mails evs = [].
Proof.
  induction todo as [|job rest IH]; intros succ fail s.
  - exists [], s, []. cbn. rewrite !app_nil_r.
    repeat split; try reflexivity; constructor.
  - cbn [run_jobs_loop enabled_jobs List.filter].
    destruct (is_enabled job) eqn:Hen; cbn [negb].
    + destruct (run_rsync_spec job s)
        as (r & s1 & evs1 & Hrun & Hres & Hok & Hst & Hsf & Hcf & Htr
            & Hruns & Hwr & Hml).
      rewrite (bind_ret_eq _ _ _ _ _ Hrun).
      assert (Hacc : exists rs s' evs,
        (if rr_success r
         then run_jobs_loop env cfg rest (succ ++ [r]) fail
         else run_jobs_loop env cfg rest succ (fail ++ [r])) s1
        = (Ret (succ ++ succeeded (r :: rs), fail ++ failures (r :: rs)), s')
        /\ Forall2 result_of (enabled_jobs rest) rs
        /\ Forall2 (run_of cfg) (enabled_jobs rest) (runs evs)
        /\ Forall2 records rs (runs evs)
        /\ last_run (status s') = last_run (status s1)
        /\ total_runs (status s') = total_runs (status s1)
        /\ last_summary (status s') = last_summary (status s1)
        /\ status_file s' = status_file s1
        /\ config_file s' = config_file s1
        /\ trace s' = trace s1 ++ evs
        /\ writes evs = []
        /\ mails evs = []).
      { unfold succeeded, failures. cbn [List.filter].
        destruct (rr_success r); cbn [negb].
        - destruct (IH (succ ++ [r]) fail s1) as (rs & s' & evs & Hloop & H).
          exists rs, s', evs. split; [|exact H].
          rewrite Hloop, <- app_assoc. reflexivity.
        - destruct (IH succ (fail ++ [r]) s1) as (rs & s' & evs & Hloop & H).
          exists rs, s', evs. split; [|exact H].
          rewrite Hloop, <- app_assoc. reflexivity. }
      destruct Hacc as (rs & s' & evs & Hloop & H1 & H2 & H3 & Hlr & Htot
                        & Hsum & Hsf' & Hcf' & Htr' & Hwr' & Hml').
      exists (r :: rs), s', (evs1 ++ evs).
      rewrite runs_app, writes_app, mails_app, Hruns, Hwr, Hml, Hwr', Hml'.
      rewrite Hlr, Htot, Hsum, Hsf', Hcf', Htr', Hst, Hsf, Hcf, Htr, app_assoc.
      split; [exact Hloop|].
      split; [constructor; assumption|].
      split; [constructor; [reflexivity|assumption]|].
      split; [constructor; [exact Hok|assumption]|].
      repeat split; reflexivity.
    + destruct (IH succ fail
                   (emit (EvLog INFO "Skipping disabled job: {}"
                                [AStr (job_name job)]) s))
        as (rs & s' & evs & Hloop & H1 & H2 & H3 & Hlr & Htot & Hsum
            & Hsf' & Hcf' & Htr' & Hwr' & Hml').
      exists rs, s',
        (EvLog INFO "Skipping disabled job: {}" [AStr (job_name job)] :: evs).
      unfold_m. rewrite Hloop, Htr'. cbn [emit trace].
      rewrite <- app_assoc.
      repeat split; try reflexivity; assumption.
Qed.

(** The guard [if failed_jobs:] only repeats the one inside
    [send_notification]. *)
Lemma notify_guard (l : list RunResult) (s : State) :
  match l with
  | [] => ret tt
  | _ :: _ => send_notification env cfg l
  end s = send_notification env cfg l s.
Proof. destruct l; reflexivity. Qed.

(** A batch always returns; what it returns, records and emits. *)
Lemma run_all_jobs_spec (s : State) :
  exists rs s' evs,
    run_all_jobs env cfg s = (Ret (Nat.eqb (length (failures rs)) 0), s')
    /\ Forall2 result_of (enabled_jobs (sync_jobs cfg)) rs
    /\ Forall2 (run_of cfg) (enabled_jobs (sync_jobs cfg)) (runs evs)
    /\ Forall2 records rs (runs evs)
    /\ total_runs (status s') = Some (default 0 (total_runs (status s)) + 1)
    /\ last_summary (status s')
       = Some (mkSummary (length (succeeded rs)) (length (failures rs))
                         (length (succeeded rs) + length (failures rs)))
    /\ config_file s' = config_file s
    /\ trace s' = trace s ++ evs
    /\ (exists out, writes evs = [(status s', out)])
    /\ (forall m, m ∈ mails evs ->
          mail_subject m = compose_subject (failures rs)
          /\ mail_body m = compose_body (failures rs))
    /\ fst (run_jobs_loop env cfg (sync_jobs cfg) [] []
              (emit (EvLog INFO "Starting backup sync run" []) s))
       = Ret (succeeded rs, failures rs)
    /\ ((forall tr doc, env_write env tr doc = Written) ->
        status_file s' = Holds (status s')).
Proof.
  unfold run_all_jobs. unfold_m.
  destruct (run_jobs_loop_spec (sync_jobs cfg) [] []
              (emit (EvLog INFO "Starting backup sync run" []) s))
    as (rs & s1 & evs1 & Hloop & H1 & H2 & H3 & Hlr & Htot & Hsum
        & Hsf & Hcf & Htr & Hwr & Hml).
  rewrite Hloop. unfold_m. cbn [app].
  match goal with
  | |- context [save_status env ?st] =>
      destruct (save_status_spec env st)
        as (s2 & evs2 & Hsave & Hst2 & Hcf2 & Htr2 & Hwr2 & Hruns2 & Hml2
            & Hfile2)
  end.
  rewrite Hsave. cbn [app snd fst].
  pose proof (notify_guard (failures rs) s2) as Hn. unfold ret in Hn.
  rewrite Hn. clear Hn.
  destruct (send_notification_spec env cfg (failures rs) s2)
    as (s3 & evs3 & Hsend & Hst3 & Hsf3 & Hcf3 & Htr3 & Hruns3 & Hwr3 & Hml3 & _).
  rewrite Hsend. unfold_m.
  cbn [status status_file config_file trace with_status emit total_runs
       last_summary last_run set_last_summary set_total_runs set_last_run] in *.
  rewrite Htot in *.
  exists rs. eexists.
  exists ([EvLog INFO "Starting backup sync run" []] ++ evs1 ++ evs2 ++ evs3
          ++ [EvLog INFO "Backup sync completed in {:.1f}s"
                [ADur (DurMeasured
                         (env_now env (trace s3)
                          - env_now env
                              (trace s ++
                               [EvLog INFO "Starting backup sync run" []])))];
              EvLog INFO "Results: {} successful, {} failed"
                [ALen (length (succeeded rs)); ALen (length (failures rs))]]).
  split; [reflexivity|]. unfold_m.
  rewrite !runs_app, !writes_app, !mails_app, Hruns2, Hruns3, Hwr, Hwr2, Hwr3,
    Hml, Hml2.
  cbn [runs writes mails omap app]. rewrite ?app_nil_r.
  rewrite Hst3, Hst2, Hcf3, Hcf2, Hcf.
  cbn [total_runs last_summary].
  repeat split; try assumption; try reflexivity.
  - rewrite Htr3, Htr2, Htr, <- !app_assoc. reflexivity.
  - eexists. reflexivity.
  - apply Hml3. assumption.
  - apply Hml3. assumption.
  - intros Hrel. rewrite Hsf3. apply Hfile2, Hrel.
Qed.

(** The value of a batch is fixed by the loop alone. *)
Lemma run_all_jobs_result (s : State) :
  fst (run_all_jobs env cfg s)
  = match fst (run_jobs_loop env cfg (sync_jobs cfg) [] []
                 (emit (EvLog INFO "Starting backup sync run" []) s)) with
    | Ret lists => Ret (Nat.eqb (length (snd lists)) 0)
    | Raise r => Raise r
    end.
Proof.
  unfold run_all_jobs. unfold_m.
  destruct (run_jobs_loop env cfg (sync_jobs cfg) [] [] _) as [[lists|r] s1];
    [|reflexivity].
  unfold_m.
  match goal with
  | |- context [save_status env ?st] =>
      destruct (save_status_spec env st) as (s2 & evs2 & Hsave & _)
  end.
  rewrite Hsave.
  pose proof (notify_guard (snd lists) s2) as Hn. unfold ret in Hn.
  rewrite Hn.
  destruct (send_notification_spec env cfg (snd lists) s2)
    as (s3 & evs3 & Hsend & _).
  rewrite Hsend. reflexivity.
Qed.

End Orchestrator.

(** ** Counting failures *)

Lemma failures_none (rs : list RunResult) :
  Nat.eqb (length (failures rs)) 0 = forallb rr_success rs.
Proof.
  unfold failures. induction rs as [|r rs IH]; simpl; [reflexivity|].
  destruct (rr_success r); simpl; [exact IH|reflexivity].
Qed.

Lemma all_succeeded_iff (rs : list RunResult) :
  forallb rr_success rs = true <-> Forall (fun r => rr_success r = true) rs.
Proof.
  rewrite forallb_forall, List.Forall_forall. reflexivity.
Qed.

Lemma records_all_ok (rs : list RunResult)
      (rn : list (list string * (exception + CompletedProcess))) :
  Forall2 records rs rn ->
  (Forall (fun r => rr_success r = true) rs
   <-> Forall (fun run => outcome_ok (snd run) = true) rn).
Proof.
  induction 1 as [|r run rs rn Hr _ IH].
  - split; constructor.
  - unfold records in Hr. split; intros Hall; inversion Hall; subst;
      constructor; try (apply IH; assumption); congruence.
Qed.

Lemma counts_add_up (rs : list RunResult) :
  (length (succeeded rs) + length (failures rs))%nat = length rs.
Proof. unfold succeeded, failures. apply List.filter_length. Qed.

(** ** Start-up *)

Lemma load_config_ok (cfg : Config) (s : State) :
  config_file s = Holds cfg ->
  load_config s
  = (Ret cfg,
     emit (EvLog INFO "Configuration loaded from {}" [AStr "config.json"]) s).
Proof.
  intros H. unfold load_config. unfold_m. rewrite H. reflexivity.
Qed.

Lemma load_status_returns (env : Env) (s : State) :
  exists s' evs,
    load_status env s = (Ret tt, s')
    /\ config_file s' = config_file s
    /\ trace s' = trace s ++ evs
    /\ runs evs = []
    /\ status s' = loaded_document (status_file s).
Proof.
  unfold load_status, save_status, loaded_document. unfold_m.
  destruct (status_file s) as [|doc|e]; cbn [exc_class]; unfold_m.
  - destruct (env_write env (trace s ++ [EvReadStatus]) empty_status) eqn:Hw;
      rewrite ?Hw; unfold_m; eexists _, _; (split; [reflexivity|]); unfold_m;
      rewrite <- ?app_assoc; repeat split; reflexivity.
  - eexists _, _; (split; [reflexivity|]); unfold_m. repeat split; reflexivity.
  - destruct (exc_class e); unfold_m;
      try (eexists _, _; (split; [reflexivity|]); unfold_m;
           rewrite <- ?app_assoc; repeat split; reflexivity).
    destruct (env_write env (trace s ++ [EvReadStatus]) empty_status) eqn:Hw;
      rewrite ?Hw; unfold_m; eexists _, _; (split; [reflexivity|]); unfold_m;
      rewrite <- ?app_assoc; repeat split; reflexivity.
Qed.

(** One run of the program on a reliable file system: the status file ends
    up holding the loaded document with its counter raised by one. *)
Lemma main_persists (env : Env) (cfg : Config) (s : State) :
  reliable_writes env ->
  config_file s = Holds cfg ->
  config_file (snd (main env s)) = Holds cfg
  /\ exists doc,
       status_file (snd (main env s)) = Holds doc
       /\ total_runs doc
          = Some (default 0 (total_runs (loaded_document (status_file s))) + 1).
Proof.
  intros Hrel Hcfg. unfold main, BackupSync_init, bind.
  rewrite (load_config_ok cfg s Hcfg).
  match goal with
  | |- context [load_status env ?st] =>
      destruct (load_status_returns env st)
        as (s1 & evs1 & Hload & Hcf1 & _ & _ & Hst1)
  end.
  rewrite Hload. unfold ret.
  destruct (run_all_jobs_spec env cfg s1)
    as (rs & s' & evs & Hrun & _ & _ & _ & Htot & _ & Hcf & _ & _ & _ & _
        & Hfile).
  rewrite Hrun. unfold sys_exit, raise. cbn [snd].
  split.
  - rewrite Hcf, Hcf1. exact Hcfg.
  - exists (status s'). split; [exact (Hfile Hrel)|].
    rewrite Htot, Hst1. reflexivity.
Qed.

(** ** The batch *)

(** C1: [run_all_jobs] always returns, and it returns true if and only if
    the number of failed enabled jobs is zero, that is if and only if every
    child process of the batch (one per enabled job, in order) ran to its end
    with status 0; the process started by [main] with a loadable
    configuration exits with status 0 exactly when every enabled job of the
    batch succeeded, and with status 1 otherwise. *)
Theorem batch_success_and_exit_status (env : Env) (cfg : Config) :
  (forall s, exists b rs s' evs,
      run_all_jobs env cfg s = (Ret b, s')
      /\ trace s' = trace s ++ evs
      /\ Forall2 result_of (enabled_jobs (sync_jobs cfg)) rs
      /\ Forall2 (run_of cfg) (enabled_jobs (sync_jobs cfg)) (runs evs)
      /\ Forall2 records rs (runs evs)
      /\ (b = true <-> length (failures rs) = 0%nat)
      /\ (b = true <-> Forall (fun r => rr_success r = true) rs)
      /\ (b = true <-> Forall (fun run => outcome_ok (snd run) = true) (runs evs)))
  /\ (forall s, config_file s = Holds cfg ->
      exists code s' evs,
        main env s = (Raise (SystemExit code), s')
        /\ trace s' = trace s ++ evs
        /\ Forall2 (run_of cfg) (enabled_jobs (sync_jobs cfg)) (runs evs)
        /\ (code = 0 <-> Forall (fun run => outcome_ok (snd run) = true) (runs evs))
        /\ (code <> 0 -> code = 1)).
Proof.
  split.
  - intros s.
    destruct (run_all_jobs_spec env cfg s)
      as (rs & s' & evs & Hrun & H1 & H2 & H3 & _ & _ & _ & Htr & _).
    exists (Nat.eqb (length (failures rs)) 0), rs, s', evs.
    repeat (split; [assumption|]).
    split; [apply Nat.eqb_eq|].
    rewrite failures_none, all_succeeded_iff.
    split; [reflexivity|]. apply records_all_ok, H3.
  - intros s Hcfg. unfold main, BackupSync_init, bind.
    rewrite (load_config_ok cfg s Hcfg).
    match goal with
    | |- context [load_status env ?st] =>
        destruct (load_status_returns env st)
          as (s1 & evs1 & Hload & Hcf1 & Htr1 & Hruns1 & _)
    end.
    rewrite Hload. unfold ret.
    destruct (run_all_jobs_spec env cfg s1)
      as (rs & s' & evs & Hrun & H1 & H2 & H3 & _ & _ & _ & Htr & _).
    rewrite Hrun. unfold sys_exit, raise.
    exists (if Nat.eqb (length (failures rs)) 0 then 0 else 1), s',
      ([EvLog INFO "Configuration loaded from {}" [AStr "config.json"]]
         ++ evs1 ++ evs).
    split; [reflexivity|].
    split; [rewrite Htr, Htr1; cbn [emit trace]; rewrite <- !app_assoc;
            reflexivity|].
    rewrite !runs_app, Hruns1. cbn [runs omap app].
    split; [exact H2|].
    rewrite <- (records_all_ok rs (runs evs) H3), <- all_succeeded_iff,
      <- failures_none.
    destruct (Nat.eqb (length (failures rs)) 0); split; try split;
      intros; try reflexivity; try discriminate; congruence.
Qed.

(** C4: every batch returns and leaves [total_runs] exactly one above what
    it found (an absent counter counting as 0); so [n] batches run one after
    the other from the empty default document leave [total_runs = n], and
    the counter grows strictly from batch to batch, never being reset. The
    same count holds from one process to the next on a never-run system
    whose status file can be written: after [n] runs of the program the
    stored document has [total_runs = n]. *)
Theorem total_runs_counts_batches (env : Env) (cfg : Config) :
  (forall s, exists b s',
      run_all_jobs env cfg s = (Ret b, s')
      /\ total_runs (status s')
         = Some (default 0 (total_runs (status s)) + 1))
  /\ (forall n s,
        total_runs (status (batches env cfg n (with_status empty_status s)))
        = Some (Z.of_nat n))
  /\ (forall n s,
        default 0 (total_runs (status (batches env cfg n s)))
        < default 0 (total_runs (status (batches env cfg (S n) s))))
  /\ (forall n s,
        reliable_writes env ->
        config_file s = Holds cfg ->
        status_file s = Absent ->
        exists doc,
          status_file (processes env (S n) s) = Holds doc
          /\ total_runs doc = Some (Z.of_nat (S n))).
Proof.
  assert (Hstep : forall s,
    total_runs (status (snd (run_all_jobs env cfg s)))
    = Some (default 0 (total_runs (status s)) + 1)).
  { intros s.
    destruct (run_all_jobs_spec env cfg s)
      as (rs & s' & evs & Hrun & _ & _ & _ & Htot & _).
    rewrite Hrun. exact Htot. }
  split; [|split; [|split]].
  - intros s.
    destruct (run_all_jobs_spec env cfg s)
      as (rs & s' & evs & Hrun & _ & _ & _ & Htot & _).
    eauto.
  - induction n as [|n IH]; intros s.
    + reflexivity.
    + cbn [batches]. rewrite Hstep, IH. cbn [from_option id]. f_equal. lia.
  - intros n s. cbn [batches]. rewrite Hstep. cbn [from_option id]. lia.
  - intros n s Hrel Hcfg Habs.
    assert (H : config_file (processes env (S n) s) = Holds cfg
                /\ exists doc,
                     status_file (processes env (S n) s) = Holds doc
                     /\ total_runs doc = Some (Z.of_nat (S n))).
    { induction n as [|n [IHc (doc & IHf & IHt)]].
      - cbn [processes].
        destruct (main_persists env cfg s Hrel Hcfg) as (Hc & doc & Hf & Ht).
        split; [exact Hc|]. exists doc. split; [exact Hf|].
        rewrite Ht, Habs. reflexivity.
      - change (processes env (S (S n)) s)
          with (snd (main env (processes env (S n) s))).
        destruct (main_persists env cfg _ Hrel IHc) as (Hc & doc' & Hf & Ht).
        split; [exact Hc|]. exists doc'. split; [exact Hf|].
        rewrite Ht, IHf. cbn [loaded_document]. rewrite IHt.
        cbn [from_option id]. f_equal. lia. }
    exact (proj2 H).
Qed.

(** C5: a job with enabled=false is never executed and never counted: the
    child processes started by a batch are, in order, those of the enabled
    jobs of the configuration; the loop's two lists, successful_jobs and
    failed_jobs, sort the results of these enabled jobs, one per job in
    configuration order; the counts of the summary are the lengths of these
    lists; and any notification mail is composed from this failed_jobs
    list. *)
Theorem disabled_jobs_excluded (env : Env) (cfg : Config) (s : State) :
  exists rs b s' evs,
    run_all_jobs env cfg s = (Ret b, s')
    /\ trace s' = trace s ++ evs
    /\ Forall2 (run_of cfg) (enabled_jobs (sync_jobs cfg)) (runs evs)
    /\ Forall2 result_of (enabled_jobs (sync_jobs cfg)) rs
    /\ fst (run_jobs_loop env cfg (sync_jobs cfg) [] []
              (emit (EvLog INFO "Starting backup sync run" []) s))
       = Ret (succeeded rs, failures rs)
    /\ last_summary (status s')
       = Some (mkSummary (length (succeeded rs)) (length (failures rs))
                         (length (succeeded rs) + length (failures rs)))
    /\ (forall m, m ∈ mails evs ->
          mail_subject m = compose_subject (failures rs)
          /\ mail_body m = compose_body (failures rs)).
Proof.
  destruct (run_all_jobs_spec env cfg s)
    as (rs & s' & evs & Hrun & H1 & H2 & H3 & _ & Hsum & _ & Htr & _ & Hml
        & Hloop & _).
  exists rs, (Nat.eqb (length (failures rs)) 0), s', evs.
  repeat (split; [assumption|]). exact Hml.
Qed.

(** C6: after every batch, last_summary.total equals
    last_summary.successful + last_summary.failed, and both equal the
    number of enabled jobs of the batch. *)
Theorem last_summary_totals (env : Env) (cfg : Config) (s : State) :
  exists b s' summary,
    run_all_jobs env cfg s = (Ret b, s')
    /\ last_summary (status s') = Some summary
    /\ total summary = (successful summary + failed summary)%nat
    /\ total summary = length (enabled_jobs (sync_jobs cfg)).
Proof.
  destruct (run_all_jobs_spec env cfg s)
    as (rs & s' & evs & Hrun & H1 & _ & _ & _ & Hsum & _).
  eexists _, s', _. split; [exact Hrun|]. split; [exact Hsum|].
  cbn [total successful failed]. split; [reflexivity|].
  rewrite counts_add_up. symmetry. exact (Forall2_length _ _ _ H1).
Qed.

(** ** Notification and the outcome of the batch *)

Lemma run_jobs_loop_relay (env : Env) (cfg : Config)
      (relay : list Event -> SmtpAction -> option exception)
      (todo : list JobSpec) :
  forall successful_jobs failed_jobs s,
    run_jobs_loop (with_smtp env relay) cfg todo successful_jobs failed_jobs s
    = run_jobs_loop env cfg todo successful_jobs failed_jobs s.
Proof.
  induction todo as [|job rest IH]; intros succ fail s; [reflexivity|].
  cbn [run_jobs_loop]. destruct (is_enabled job); cbn [negb].
  - unfold bind.
    change (run_rsync (with_smtp env relay) cfg job s)
      with (run_rsync env cfg job s).
    destruct (run_rsync env cfg job s) as [[r|x] s1]; [|reflexivity].
    destruct (rr_success r); apply IH.
  - unfold bind. destruct (log _ _ _ s) as [[u|x] s1]; [apply IH|reflexivity].
Qed.

(** C8, as stated, fails for the empty list: [send_notification] returns at
    once and logs nothing, so there is no warning. *)
Lemma send_notification_empty_logs_nothing :
  send_notification env_ok sample_cfg [] fresh_state = (Ret tt, fresh_state)
  /\ logged WARNING
       (trace (snd (send_notification env_ok sample_cfg [] fresh_state)))
     = [].
Proof. split; reflexivity. Qed.

(** C8 (amended): [send_notification] always returns normally, whatever
    fails while the message is composed or delivered, and leaves the status
    and the status file alone; with an empty list it is a silent no-op
    (nothing logged, no delivery attempted); with a non-empty list and the
    recipient unset it logs one warning and attempts no delivery; and the
    value returned by the batch does not depend on the mail relay. *)
Theorem send_notification_contained
        (env : Env) (cfg : Config) (failed_jobs : list RunResult) (s : State) :
  exists s' evs,
    send_notification env cfg failed_jobs s = (Ret tt, s')
    /\ status s' = status s
    /\ status_file s' = status_file s
    /\ trace s' = trace s ++ evs
    /\ (failed_jobs = [] -> evs = [])
    /\ (failed_jobs <> [] -> email_unset cfg ->
        evs = [EvLog WARNING
                 "No email configuration found, skipping notification" []]
        /\ smtp_calls evs = [])
    /\ (forall relay,
          fst (run_all_jobs (with_smtp env relay) cfg s)
          = fst (run_all_jobs env cfg s)).
Proof.
  destruct (send_notification_spec env cfg failed_jobs s)
    as (s' & evs & Hsend & Hst & Hsf & _ & Htr & _ & _ & _ & Hnil & Hunset).
  exists s', evs. repeat (split; [assumption|]).
  split.
  - intros Hne Hu. rewrite (Hunset Hne Hu). split; reflexivity.
  - intros relay. rewrite !run_all_jobs_result, run_jobs_loop_relay.
    reflexivity.
Qed.

(** ** Runs of the model on the sample systems *)

Example build_cmd_defaults :
  build_cmd sample_cfg docs_job
  = ["rsync"; "-e"; "ssh -o StrictHostKeyChecking=no"; "-avz"; "--delete";
     "--stats"; "--exclude"; "*.tmp"; "/srv/docs/";
     "backup@vault:/backup/docs/"].
Proof. vm_compute. reflexivity. Qed.

Example build_cmd_settings :
  build_cmd mail_cfg docs_job
  = ["rsync"; "-e"; "ssh -i /root/.ssh/id_backup -o StrictHostKeyChecking=no";
     "-az"; "--stats"; "--exclude"; "*.tmp"; "/srv/docs/";
     "backup@vault:/backup/docs/"].
Proof. vm_compute. reflexivity. Qed.

Example pystr_samples :
  PyStr.split ":" "a:b:" = ["a"; "b"; ""]
  /\ PyStr.split ":" "" = [""]
  /\ PyStr.strip "  4,096 bytes " = "4,096 bytes"
  /\ PyStr.split_ws "  -avz   --delete " = ["-avz"; "--delete"]
  /\ PyStr.contains "Total file size:" "Total transferred file size: 1" = false.
Proof. repeat split; vm_compute; reflexivity. Qed.

Example parse_later_line_wins :
  parse_rsync_stats ("Number of files: 1" +:+ nl +:+ "Number of files: 2")
  = Ret {[ "total_files" := "2" ]}.
Proof. vm_compute. reflexivity. Qed.

(** A first run on a never-run system where the job succeeds. *)
Example first_run_succeeds :
  fst (main env_ok fresh_state) = Raise (SystemExit 0)
  /\ runs (trace (snd (main env_ok fresh_state)))
     = [(build_cmd sample_cfg docs_job,
         inr (mkCompleted 0 ("Number of files: 3" +:+ nl) ""))]
  /\ last_summary (loaded_document (status_file (snd (main env_ok fresh_state))))
     = Some (mkSummary 1 0 1)
  /\ total_runs (loaded_document (status_file (snd (main env_ok fresh_state))))
     = Some 1
  /\ rr_stats <$>
       jobs (loaded_document (status_file (snd (main env_ok fresh_state))))
         !! "docs"
     = Some {[ "total_files" := "3" ]}.
Proof. repeat split; vm_compute; reflexivity. Qed.

(** A run where the job times out and the mail goes through. *)
Example timeout_is_notified :
  fst (main env_timeout mail_state) = Raise (SystemExit 1)
  /\ mails (trace (snd (main env_timeout mail_state)))
     = [mkMail "backup@example.org" "ops@example.org"
               "Backup Sync Failed - 1 job(s)"
               ("The following backup jobs failed:" +:+ nl +:+ nl +:+
                "• docs" +:+ nl +:+
                "  Source: /srv/docs/" +:+ nl +:+
                "  Error: Timeout after 1 hour" +:+ nl +:+ nl)]
  /\ last_summary (status (snd (main env_timeout mail_state)))
     = Some (mkSummary 0 1 1).
Proof. repeat split; vm_compute; reflexivity. Qed.

(** A run where the job times out and the relay is down: the failure to
    notify is logged and the exit status is that of the batch. *)
Example relay_down_is_logged :
  fst (main env_relay_down mail_state) = Raise (SystemExit 1)
  /\ logged ERROR (trace (snd (main env_relay_down mail_state)))
     = ["✗ {} timed out after 1 hour";
        "Failed to send notification email: {}"]
  /\ mails (trace (snd (main env_relay_down mail_state))) = [].
Proof. repeat split; vm_compute; reflexivity. Qed.

(** A failed job without notification settings: one warning, no call on the
    relay. *)
Example no_recipient_warns :
  email_unset sample_cfg
  /\ logged WARNING (trace (snd (main env_timeout fresh_state)))
     = ["No email configuration found, skipping notification"]
  /\ smtp_calls (trace (snd (main env_timeout fresh_state))) = [].
Proof. repeat split; vm_compute; reflexivity. Qed.

(** Loading a status file that does not decode: the default in memory, an
    error logged, nothing written. *)
Example corrupt_status_file :
  fst (load_status env_ok corrupt_state) = Ret tt
  /\ status (snd (load_status env_ok corrupt_state)) = empty_status
  /\ status_file (snd (load_status env_ok corrupt_state))
     = status_file corrupt_state
  /\ writes (trace (snd (load_status env_ok corrupt_state))) = []
  /\ logged ERROR (trace (snd (load_status env_ok corrupt_state)))
     = ["Failed to load status: {}"].
Proof. repeat split; vm_compute; reflexivity. Qed.

(** Loading on a never-run system writes the default document. *)
Example absent_status_file :
  status_file (snd (load_status env_ok fresh_state)) = Holds empty_status
  /\ writes (trace (snd (load_status env_ok fresh_state)))
     = [(empty_status, Written)].
Proof. repeat split; vm_compute; reflexivity. Qed.

(** Three runs of the program in a row. *)
Example three_runs :
  total_runs (loaded_document (status_file (processes env_ok 3 fresh_state)))
  = Some 3.
Proof. vm_compute. reflexivity. Qed.

(** A configuration file that cannot be loaded ends the process with
    status 1 before any job runs. *)
Example no_configuration :
  fst (main env_ok (mkState empty_status Absent Absent [])) = Raise (SystemExit 1)
  /\ runs (trace (snd (main env_ok (mkState empty_status Absent Absent [])))) = [].
Proof. repeat split; vm_compute; reflexivity. Qed.


(** * Further properties of the engine *)

(** ** Start-up and the status store *)

(** X1: when the configuration file is missing or cannot be decoded, the
    program logs one error and exits with status 1; it reads and writes no
    status file and starts no process. *)
Theorem main_without_configuration (env : Env) (s : State) :
  config_file s = Absent \/ (exists e, config_file s = Unreadable e) ->
  exists msg,
    main env s
    = (Raise (SystemExit 1),
       emit (EvLog ERROR "Failed to load configuration: {}" [AStr msg]) s).
Proof.
  intros [H | [e H]]; unfold main, BackupSync_init, load_config; unfold_m;
    rewrite H; eexists; reflexivity.
Qed.

Lemma main_without_configuration_witness :
  exists msg,
    main env_ok unconfigured_state
    = (Raise (SystemExit 1),
       emit (EvLog ERROR "Failed to load configuration: {}" [AStr msg])
            unconfigured_state).
Proof.
  apply (main_without_configuration env_ok unconfigured_state).
  left. reflexivity.
Defined.

(** X2: a status saved with a write that goes through is what a later
    [load_status] installs, whatever the object held before loading; the
    load itself writes nothing. *)
Theorem save_load_round_trip (env : Env) (s : State) (other : StatusDocument) :
  env_write env (trace s) (status s) = Written ->
  exists s1 s2,
    save_status env s = (Ret tt, s1)
    /\ load_status env (with_status other s1) = (Ret tt, s2)
    /\ status s2 = status s
    /\ status_file s2 = Holds (status s)
    /\ trace s2
       = trace s ++ [EvWriteStatus (status s) Written; EvReadStatus].
Proof.
  intros Hw. unfold save_status, load_status. unfold_m. rewrite Hw. unfold_m.
  eexists _, _. split; [reflexivity|]. unfold_m.
  split; [reflexivity|]. unfold_m. rewrite <- app_assoc.
  repeat split; reflexivity.
Qed.

Lemma save_load_round_trip_witness :
  exists s1 s2,
    save_status env_ok earlier_state = (Ret tt, s1)
    /\ load_status env_ok (with_status empty_status s1) = (Ret tt, s2)
    /\ status s2 = status earlier_state
    /\ status_file s2 = Holds (status earlier_state)
    /\ trace s2
       = trace earlier_state
         ++ [EvWriteStatus (status earlier_state) Written; EvReadStatus].
Proof.
  apply (save_load_round_trip env_ok earlier_state empty_status).
  reflexivity.
Defined.

(** X3: a status write that fails is swallowed: [save_status] returns
    normally, leaves the status in memory as it was and logs one error with
    the text of the failure; when the file could not even be opened, it
    still holds what it held. *)
Theorem save_status_failure_swallowed (env : Env) (s : State) (e : exception) :
  env_write env (trace s) (status s) = OpenFailed e
  \/ env_write env (trace s) (status s) = DumpFailed e ->
  exists s',
    save_status env s = (Ret tt, s')
    /\ status s' = status s
    /\ trace s'
       = trace s
         ++ [EvWriteStatus (status s) (env_write env (trace s) (status s));
             EvLog ERROR "Failed to save status: {}" [AStr (exc_str e)]]
    /\ (env_write env (trace s) (status s) = OpenFailed e ->
        status_file s' = status_file s).
Proof.
  intros [Hw | Hw]; unfold save_status; unfold_m; rewrite Hw; unfold_m;
    eexists; (split; [reflexivity|]); unfold_m; rewrite <- app_assoc;
    repeat split; try reflexivity; discriminate.
Qed.

Lemma save_status_failure_swallowed_witness :
  exists s',
    save_status env_read_only earlier_state = (Ret tt, s')
    /\ status s' = status earlier_state
    /\ trace s'
       = trace earlier_state
         ++ [EvWriteStatus (status earlier_state)
               (env_write env_read_only (trace earlier_state)
                          (status earlier_state));
             EvLog ERROR "Failed to save status: {}"
               [AStr "[Errno 13] Permission denied: 'status.json'"]]
    /\ (env_write env_read_only (trace earlier_state) (status earlier_state)
        = OpenFailed (mkExc OtherException
                        "[Errno 13] Permission denied: 'status.json'") ->
        status_file s' = status_file earlier_state).
Proof.
  apply (save_status_failure_swallowed env_read_only earlier_state
           (mkExc OtherException "[Errno 13] Permission denied: 'status.json'")).
  left. reflexivity.
Defined.

(** ** The job runner *)

Lemma job_events_quiet (evs : list Event) :
  Forall job_event evs ->
  writes evs = []
  /\ smtp_log evs = []
  /\ smtp_calls evs = []
  /\ mails evs = []
  /\ logged WARNING evs = []
  /\ ("Failed to send notification email: {}" ∉ logged ERROR evs)
  /\ Forall (fun ev => match ev with EvRun _ t _ => t = 3600 | _ => True end) evs.
Proof.
  induction 1 as [|ev evs Hev _ (H1 & H2 & H3 & H4 & H5 & H6 & H7)].
  - repeat split; try reflexivity; [apply not_elem_of_nil|constructor].
  - destruct ev as [lvl fmt args| | | |]; try contradiction;
      [destruct lvl; try contradiction|];
      cbn in *; rewrite ?H1, ?H2, ?H3, ?H4, ?H5;
      repeat split; try reflexivity; try assumption;
      try (constructor; [exact I || assumption|assumption]).
    intros Hin. apply elem_of_cons in Hin as [Heq|Hin]; [|exact (H6 Hin)].
    destruct Hev as [Hne _]. congruence.
Qed.

Lemma runs_singleton_in (evs : list Event) (cmd : list string)
      (out : exception + CompletedProcess) :
  runs evs = [(cmd, out)] ->
  Forall (fun ev => match ev with EvRun _ t _ => t = 3600 | _ => True end) evs ->
  In (EvRun cmd 3600 out) evs.
Proof.
  induction evs as [|ev evs IH]; [discriminate|].
  intros Hruns Ht. inversion Ht as [|? ? Hev Hrest]; subst.
  destruct ev; cbn in Hruns; try (right; apply IH; assumption).
  injection Hruns as -> -> _. left. subst. reflexivity.
Qed.

(** [run_rsync] in full: its result, what it stores and what it emits. *)
Lemma run_rsync_full (env : Env) (cfg : Config) (job : JobSpec) (s : State) :
  exists r s' evs,
    run_rsync env cfg job s = (Ret r, s')
    /\ result_of job r
    /\ rr_success r = outcome_ok (child_outcome env cfg job s)
    /\ status s' = set_job (job_name job) r (status s)
    /\ status_file s' = status_file s
    /\ config_file s' = config_file s
    /\ trace s' = trace s ++ evs
    /\ runs evs = [(build_cmd cfg job, child_outcome env cfg job s)]
    /\ Forall job_event evs.
Proof.
  unfold run_rsync, child_outcome, start_event, result_of. unfold_m.
  destruct (env_run env _ _ _) as [e|p] eqn:Hout; unfold_m.
  - destruct (exc_class e); unfold_m;
      eexists _, _, _; (split; [reflexivity|]); unfold_m;
      rewrite <- ?app_assoc; repeat split; try reflexivity;
      repeat constructor; discriminate.
  - unfold parse_rsync_stats. rewrite parse_lines_fold.
    destruct (returncode p =? 0) eqn:Hrc; unfold_m;
      eexists _, _, _; (split; [reflexivity|]); unfold_m;
      rewrite <- ?app_assoc; cbn [rr_success outcome_ok];
      repeat split; try reflexivity; rewrite ?Hrc; try reflexivity;
      repeat constructor; discriminate.
Qed.

(** X4: when the child process runs to its end, [run_rsync] returns a
    RunResult with success = (return code is 0), the return code itself, no
    error text, the statistics parsed from the captured standard output, both
    captured streams, the start instant and the clock difference across the
    run as duration; it logs no error on status 0 and two error lines
    otherwise. *)
Theorem run_rsync_completed
        (env : Env) (cfg : Config) (job : JobSpec) (s : State)
        (p : CompletedProcess) :
  child_outcome env cfg job s = inr p ->
  exists stats s' evs,
    parse_rsync_stats (stdout p) = Ret stats
    /\ run_rsync env cfg job s
       = (Ret (mkRunResult
                 (job_name job) (job_source job) (job_destination job)
                 (child_start env cfg job s)
                 (DurMeasured
                    (env_now env
                       (trace s ++ [start_event cfg job;
                                    EvRun (build_cmd cfg job) 3600 (inr p)])
                     - child_start env cfg job s))
                 (returncode p =? 0) (returncode p) None stats
                 (stdout p) (stderr p)),
          s')
    /\ trace s' = trace s ++ evs
    /\ logged ERROR evs
       = (if returncode p =? 0 then []
          else ["✗ {} failed with return code {}"; "Error output: {}"]).
Proof.
  intros Hout. unfold child_outcome, child_start, start_event in *.
  unfold run_rsync. unfold_m. rewrite Hout. unfold_m.
  unfold parse_rsync_stats. rewrite parse_lines_fold.
  destruct (returncode p =? 0) eqn:Hrc; unfold_m; rewrite <- ?app_assoc;
    eexists _, _, _; (split; [reflexivity|]);
    (split; [reflexivity|]); unfold_m; rewrite <- ?app_assoc;
    split; reflexivity.
Qed.

Lemma run_rsync_completed_witness :
  exists stats s' evs,
    parse_rsync_stats (stdout (mkCompleted 0 ("Number of files: 3" +:+ nl) ""))
    = Ret stats
    /\ run_rsync env_ok sample_cfg docs_job fresh_state
       = (Ret (mkRunResult
                 (job_name docs_job) (job_source docs_job)
                 (job_destination docs_job)
                 (child_start env_ok sample_cfg docs_job fresh_state)
                 (DurMeasured
                    (env_now env_ok
                       (trace fresh_state
                          ++ [start_event sample_cfg docs_job;
                              EvRun (build_cmd sample_cfg docs_job) 3600
                                    (inr (mkCompleted 0
                                            ("Number of files: 3" +:+ nl) ""))])
                     - child_start env_ok sample_cfg docs_job fresh_state))
                 (0 =? 0) 0 None stats ("Number of files: 3" +:+ nl) ""),
          s')
    /\ trace s' = trace fresh_state ++ evs
    /\ logged ERROR evs
       = (if 0 =? 0 then []
          else ["✗ {} failed with return code {}"; "Error output: {}"]).
Proof.
  apply (run_rsync_completed env_ok sample_cfg docs_job fresh_state
           (mkCompleted 0 ("Number of files: 3" +:+ nl) "")).
  reflexivity.
Defined.

(** X5: [run_rsync] stores its result under the job's name and changes
    nothing else: the entries of all other jobs, the last-run instant, the
    run counter and the summary stay as they were; it starts exactly one
    child process, with the 3600-second timeout, and neither writes the
    status file nor calls the mail relay. *)
Theorem run_rsync_frame
        (env : Env) (cfg : Config) (job : JobSpec) (s : State) :
  exists r s' evs,
    run_rsync env cfg job s = (Ret r, s')
    /\ jobs (status s') !! job_name job = Some r
    /\ (forall other, other <> job_name job ->
          jobs (status s') !! other = jobs (status s) !! other)
    /\ last_run (status s') = last_run (status s)
    /\ total_runs (status s') = total_runs (status s)
    /\ last_summary (status s') = last_summary (status s)
    /\ status_file s' = status_file s
    /\ trace s' = trace s ++ evs
    /\ runs evs = [(build_cmd cfg job, child_outcome env cfg job s)]
    /\ In (EvRun (build_cmd cfg job) 3600 (child_outcome env cfg job s)) evs
    /\ writes evs = []
    /\ smtp_calls evs = [].
Proof.
  destruct (run_rsync_full env cfg job s)
    as (r & s' & evs & Hrun & _ & _ & Hst & Hsf & _ & Htr & Hruns & Hev).
  destruct (job_events_quiet evs Hev) as (Hw & _ & Hsm & _ & _ & _ & Ht).
  exists r, s', evs. rewrite Hst. cbn [jobs last_run total_runs last_summary set_job].
  repeat split; try assumption; try reflexivity.
  - apply lookup_insert_eq.
  - intros other Hne. apply lookup_insert_ne. congruence.
  - apply runs_singleton_in; assumption.
Qed.

(** X6: a job whose child process ends with a non-zero status fails without
    an error text, so its entry in the notification mail reads "Unknown
    error", while the captured standard error is kept in the result. *)
Theorem nonzero_exit_mail_entry
        (env : Env) (cfg : Config) (job : JobSpec) (s : State)
        (p : CompletedProcess) :
  child_outcome env cfg job s = inr p ->
  returncode p <> 0 ->
  exists r s',
    run_rsync env cfg job s = (Ret r, s')
    /\ rr_success r = false
    /\ rr_return_code r = returncode p
    /\ rr_stderr r = stderr p
    /\ mail_entry r
       = "• " +:+ job_name job +:+ nl +:+
         "  Source: " +:+ job_source job +:+ nl +:+
         "  Error: " +:+ "Unknown error" +:+ nl +:+ nl.
Proof.
  intros Hout Hrc. apply Z.eqb_neq in Hrc.
  unfold child_outcome, start_event in Hout.
  unfold run_rsync. unfold_m. rewrite Hout. unfold_m.
  unfold parse_rsync_stats. rewrite parse_lines_fold, Hrc. unfold_m.
  eexists _, _. split; [reflexivity|].
  cbn [rr_success rr_return_code rr_stderr].
  repeat split; reflexivity.
Qed.

Lemma nonzero_exit_mail_entry_witness :
  exists r s',
    run_rsync env_partial sample_cfg docs_job fresh_state = (Ret r, s')
    /\ rr_success r = false
    /\ rr_return_code r = 23
    /\ rr_stderr r = "rsync error: some files could not be transferred"
    /\ mail_entry r
       = "• " +:+ job_name docs_job +:+ nl +:+
         "  Source: " +:+ job_source docs_job +:+ nl +:+
         "  Error: " +:+ "Unknown error" +:+ nl +:+ nl.
Proof.
  apply (nonzero_exit_mail_entry env_partial sample_cfg docs_job fresh_state
           (mkCompleted 23 "" "rsync error: some files could not be transferred")).
  - reflexivity.
  - discriminate.
Defined.

(** ** The command line *)

Lemma all_chars_rev_app (p : ascii -> bool) (s1 s2 : string) :
  all_chars p (String.rev_app s1 s2) = all_chars p s1 && all_chars p s2.
Proof.
  revert s2. induction s1 as [|a s1 IH]; intros s2; simpl; [reflexivity|].
  rewrite IH. simpl. destruct (p a), (all_chars p s1); reflexivity.
Qed.

Lemma rev_app_nonempty (s1 s2 : string) :
  s1 <> "" \/ s2 <> "" -> String.rev_app s1 s2 <> "".
Proof.
  revert s2. induction s1 as [|a s1 IH]; intros s2 [H|H]; simpl;
    try congruence; apply IH; right; discriminate.
Qed.

Lemma split_ws_go_tokens (s cur : string) :
  all_chars (fun c => negb (PyStr.isspace c)) cur = true ->
  Forall is_token (PyStr.split_ws_go cur s).
Proof.
  assert (Htok : forall cur,
    cur <> "" -> all_chars (fun c => negb (PyStr.isspace c)) cur = true ->
    is_token (String.rev cur)).
  { intros c Hne Hc. split.
    - apply rev_app_nonempty. left. exact Hne.
    - unfold String.rev. rewrite all_chars_rev_app, Hc. reflexivity. }
  revert cur. induction s as [|c s IH]; intros cur Hcur; simpl.
  - destruct cur; [constructor|].
    constructor; [apply Htok; [discriminate|exact Hcur]|constructor].
  - destruct (PyStr.isspace c) eqn:Hc.
    + destruct cur; [apply IH; reflexivity|].
      constructor; [apply Htok; [discriminate|exact Hcur]|].
      apply IH. reflexivity.
    + apply IH. simpl. rewrite Hc, Hcur. reflexivity.
Qed.

Lemma split_ws_go_blank (s : string) :
  all_chars PyStr.isspace s = true -> PyStr.split_ws_go "" s = [].
Proof.
  induction s as [|c s IH]; simpl; [reflexivity|].
  intros H. apply andb_true_iff in H as [Hc Hs]. rewrite Hc. apply IH, Hs.
Qed.

Lemma append_nil_r (s : string) : s +:+ "" = s.
Proof.
  induction s as [|c s IH]; [reflexivity|].
  change (String c s +:+ "") with (String c (s +:+ "")). rewrite IH.
  reflexivity.
Qed.

Lemma append_assoc (s1 s2 s3 : string) :
  (s1 +:+ s2) +:+ s3 = s1 +:+ (s2 +:+ s3).
Proof.
  induction s1 as [|c s1 IH]; [reflexivity|].
  change (String c s1 +:+ s2) with (String c (s1 +:+ s2)).
  change (String c (s1 +:+ s2) +:+ s3) with (String c ((s1 +:+ s2) +:+ s3)).
  rewrite IH. reflexivity.
Qed.

Lemma rev_app_rev_app (s1 s2 s3 : string) :
  String.rev_app (String.rev_app s1 s2) s3 = String.rev_app s2 (s1 +:+ s3).
Proof.
  revert s2 s3. induction s1 as [|c s1 IH]; intros s2 s3; [reflexivity|].
  simpl. rewrite IH. reflexivity.
Qed.

Lemma rev_rev (s : string) : String.rev (String.rev s) = s.
Proof.
  unfold String.rev. rewrite rev_app_rev_app. simpl. apply append_nil_r.
Qed.

Lemma rev_app_append (s1 s2 : string) :
  String.rev_app s1 s2 = String.rev s1 +:+ s2.
Proof.
  unfold String.rev. revert s2.
  induction s1 as [|c s1 IH]; intros s2; [reflexivity|].
  simpl. rewrite (IH (String c s2)), (IH (String c "")), append_assoc.
  reflexivity.
Qed.

(** A run of non-whitespace characters goes to the pending token as a
    whole. *)
Lemma split_ws_go_run (tok rest cur : string) :
  all_chars (fun c => negb (PyStr.isspace c)) tok = true ->
  PyStr.split_ws_go cur (tok +:+ rest)
  = PyStr.split_ws_go (String.rev_app tok cur) rest.
Proof.
  revert cur. induction tok as [|c tok IH]; intros cur H; [reflexivity|].
  simpl in H. apply andb_true_iff in H as [Hc Htok].
  apply negb_true_iff in Hc.
  change (String c tok +:+ rest) with (String c (tok +:+ rest)).
  simpl. rewrite Hc. apply IH, Htok.
Qed.

(** Arguments joined by single spaces are cut back into these arguments. *)
Lemma split_ws_join (toks : list string) :
  Forall is_token toks -> PyStr.split_ws (PyStr.join " " toks) = toks.
Proof.
  unfold PyStr.split_ws.
  induction 1 as [|tok toks [Hne Htok] Hrest IH]; [reflexivity|].
  assert (Hrev : String.rev_app tok "" <> "")
    by (apply rev_app_nonempty; left; exact Hne).
  destruct toks as [|tok' toks].
  - cbn [PyStr.join]. rewrite <- (append_nil_r tok) at 1.
    rewrite (split_ws_go_run tok "" "" Htok). simpl.
    destruct (String.rev_app tok "") eqn:E; [congruence|].
    rewrite <- E. fold (String.rev tok). fold (String.rev (String.rev tok)).
    rewrite rev_rev. reflexivity.
  - change (PyStr.join " " (tok :: tok' :: toks))
      with (tok +:+ String " " (PyStr.join " " (tok' :: toks))).
    rewrite (split_ws_go_run tok _ "" Htok).
    change (PyStr.split_ws_go (String.rev_app tok "")
              (String " " (PyStr.join " " (tok' :: toks))))
      with (match String.rev_app tok "" with
            | EmptyString =>
                PyStr.split_ws_go "" (PyStr.join " " (tok' :: toks))
            | _ => String.rev (String.rev_app tok "")
                   :: PyStr.split_ws_go "" (PyStr.join " " (tok' :: toks))
            end).
    destruct (String.rev_app tok "") eqn:E; [congruence|].
    rewrite <- E. fold (String.rev tok). rewrite rev_rev, IH. reflexivity.
Qed.

Lemma join_empty_cons (x : string) (l : list string) :
  PyStr.join "" (x :: l) = x +:+ PyStr.join "" l.
Proof.
  destruct l as [|y l]; cbn [PyStr.join]; [symmetry; apply append_nil_r|].
  reflexivity.
Qed.

(** Cutting at whitespace drops whitespace and nothing else. *)
Lemma split_ws_go_chars (s cur : string) :
  PyStr.join "" (PyStr.split_ws_go cur s) = String.rev cur +:+ non_space s.
Proof.
  revert cur. induction s as [|c s IH]; intros cur.
  - cbn [PyStr.split_ws_go non_space]. destruct cur.
    + reflexivity.
    + cbn [PyStr.join]. symmetry. apply append_nil_r.
  - cbn [PyStr.split_ws_go non_space]. destruct (PyStr.isspace c).
    + destruct cur.
      * apply IH.
      * rewrite join_empty_cons, IH. reflexivity.
    + rewrite IH. unfold String.rev. cbn [String.rev_app].
      rewrite (rev_app_append cur (String c "")), append_assoc.
      reflexivity.
Qed.

(** X7: the argument list of a job is "rsync", "-e", the remote shell, then
    the arguments of the option string, then one "--exclude" flag followed by
    the unsplit pattern for each exclude, then source and destination as the
    last two arguments. The remote shell is "ssh -i <key> -o
    StrictHostKeyChecking=no" for a non-empty ssh_key and "ssh -o
    StrictHostKeyChecking=no" for an absent or empty one. The option
    arguments are those of the configured option string, or of "-avz --delete
    --stats" without the setting, cut at whitespace and nowhere else: each
    argument is non-empty and free of whitespace, together they hold the
    characters of the option string without its whitespace, arguments joined
    by single spaces come out as they went in, and a blank option string
    contributes none. *)
Theorem build_cmd_arguments (cfg : Config) (job : JobSpec) :
  exists shell options,
    build_cmd cfg job
    = ["rsync"; "-e"; shell] ++ options
      ++ flat_map (fun pattern => ["--exclude"; pattern])
                  (default [] (job_exclude job))
      ++ [job_source job; job_destination job]
    /\ (ssh_key (settings_of cfg) = None \/ ssh_key (settings_of cfg) = Some "" ->
        shell = "ssh -o StrictHostKeyChecking=no")
    /\ (forall key, ssh_key (settings_of cfg) = Some key -> key <> "" ->
          shell = "ssh -i " +:+ key +:+ " -o StrictHostKeyChecking=no")
    /\ options
       = PyStr.split_ws
           (default "-avz --delete --stats" (rsync_options (settings_of cfg)))
    /\ Forall is_token options
    /\ PyStr.join "" options
       = non_space
           (default "-avz --delete --stats" (rsync_options (settings_of cfg)))
    /\ (forall toks, Forall is_token toks ->
          rsync_options (settings_of cfg) = Some (PyStr.join " " toks) ->
          options = toks)
    /\ (forall text, rsync_options (settings_of cfg) = Some text ->
          all_chars PyStr.isspace text = true -> options = [])
    /\ (rsync_options (settings_of cfg) = None ->
        options = ["-avz"; "--delete"; "--stats"]).
Proof.
  unfold build_cmd.
  exists (match ssh_key (settings_of cfg) with
          | Some key =>
              if PyStr.truthy key
              then "ssh -i " +:+ key +:+ " -o StrictHostKeyChecking=no"
              else "ssh -o StrictHostKeyChecking=no"
          | None => "ssh -o StrictHostKeyChecking=no"
          end),
         (PyStr.split_ws
            (default "-avz --delete --stats"
                     (rsync_options (settings_of cfg)))).
  split.
  { destruct (ssh_key (settings_of cfg)) as [key|]; [|reflexivity].
    destruct (PyStr.truthy key); reflexivity. }
  split.
  { intros [H|H]; rewrite H; reflexivity. }
  split.
  { intros key H Hne. rewrite H. destruct key; [congruence|reflexivity]. }
  split; [reflexivity|].
  split; [apply split_ws_go_tokens; reflexivity|].
  split; [apply (split_ws_go_chars _ "")|].
  split; [intros toks Htoks ->; apply split_ws_join, Htoks|].
  split; [intros text -> Hblank; apply split_ws_go_blank, Hblank|].
  intros ->. reflexivity.
Qed.

(** ** The statistics parser *)

Lemma split_pieces_no_sep (sep : ascii) (s : string) :
  Forall (fun piece => PyStr.has_char sep piece = false) (PyStr.split sep s).
Proof.
  induction s as [|c s IH]; simpl.
  - repeat constructor.
  - destruct (Ascii.eqb c sep) eqn:Hc.
    + constructor; [reflexivity|exact IH].
    + destruct (PyStr.split sep s) as [|piece rest].
      * repeat constructor. simpl. rewrite Hc. reflexivity.
      * inversion IH; subst. constructor; [|assumption].
        simpl. rewrite Hc. assumption.
Qed.

Lemma before_first_no_sep (sep : ascii) (s : string) :
  PyStr.has_char sep (PyStr.before_first sep s) = false.
Proof.
  induction s as [|c s IH]; simpl; [reflexivity|].
  destruct (Ascii.eqb c sep) eqn:Hc; simpl; [reflexivity|].
  rewrite Hc. exact IH.
Qed.

Lemma has_char_before_first (c sep : ascii) (s : string) :
  PyStr.has_char c s = false ->
  PyStr.has_char c (PyStr.before_first sep s) = false.
Proof.
  induction s as [|a s IH]; simpl; [reflexivity|].
  intros H. apply orb_false_iff in H as [Ha Hs].
  destruct (Ascii.eqb a sep); simpl; [reflexivity|].
  rewrite Ha. apply IH, Hs.
Qed.

Lemma has_char_after_first (c sep : ascii) (s : string) :
  PyStr.has_char c s = false ->
  PyStr.has_char c (PyStr.after_first sep s) = false.
Proof.
  induction s as [|a s IH]; simpl; [reflexivity|].
  intros H. apply orb_false_iff in H as [Ha Hs].
  destruct (Ascii.eqb a sep); [exact Hs|apply IH, Hs].
Qed.

Lemma has_char_lstrip (c : ascii) (s : string) :
  PyStr.has_char c s = false -> PyStr.has_char c (PyStr.lstrip s) = false.
Proof.
  induction s as [|a s IH]; simpl; [reflexivity|].
  intros H. destruct (PyStr.isspace a); [|exact H].
  apply orb_false_iff in H as [_ Hs]. apply IH, Hs.
Qed.

Lemma has_char_rev_app (c : ascii) (s1 s2 : string) :
  PyStr.has_char c (String.rev_app s1 s2)
  = PyStr.has_char c s1 || PyStr.has_char c s2.
Proof.
  revert s2. induction s1 as [|a s1 IH]; intros s2; simpl; [reflexivity|].
  rewrite IH. simpl.
  destruct (Ascii.eqb a c), (PyStr.has_char c s1); reflexivity.
Qed.

Lemma has_char_strip (c : ascii) (s : string) :
  PyStr.has_char c s = false -> PyStr.has_char c (PyStr.strip s) = false.
Proof.
  intros H. unfold PyStr.strip, PyStr.rstrip, String.rev.
  rewrite has_char_rev_app, orb_false_r.
  apply has_char_lstrip. rewrite has_char_rev_app, orb_false_r.
  apply has_char_lstrip, H.
Qed.

Lemma first_char_lstrip (s : string) (c : ascii) :
  first_char (PyStr.lstrip s) = Some c -> PyStr.isspace c = false.
Proof.
  induction s as [|a s IH]; simpl; [discriminate|].
  destruct (PyStr.isspace a) eqn:Ha; [exact IH|].
  intros [= <-]. exact Ha.
Qed.

Lemma last_char_lstrip (s : string) (c : ascii) :
  last_char (PyStr.lstrip s) = Some c -> last_char s = Some c.
Proof.
  induction s as [|a s IH]; simpl; [discriminate|].
  destruct (PyStr.isspace a).
  - intros H. specialize (IH H). destruct s; [discriminate|exact IH].
  - intros H. exact H.
Qed.

Lemma last_char_rev_app (s1 s2 : string) :
  last_char (String.rev_app s1 s2)
  = match s2 with
    | EmptyString => first_char s1
    | _ => last_char s2
    end.
Proof.
  revert s2. induction s1 as [|a s1 IH]; intros s2; simpl.
  - destruct s2; reflexivity.
  - rewrite IH. destruct s2; reflexivity.
Qed.

Lemma first_char_rev_app (s1 s2 : string) :
  first_char (String.rev_app s1 s2)
  = match s1 with
    | EmptyString => first_char s2
    | _ => last_char s1
    end.
Proof.
  revert s2. induction s1 as [|a s1 IH]; intros s2; simpl; [reflexivity|].
  rewrite IH. destruct s1; reflexivity.
Qed.

Lemma strip_trimmed (s : string) :
  (forall c, first_char (PyStr.strip s) = Some c -> PyStr.isspace c = false)
  /\ (forall c, last_char (PyStr.strip s) = Some c -> PyStr.isspace c = false).
Proof.
  unfold PyStr.strip, PyStr.rstrip, String.rev. split; intros c H.
  - rewrite first_char_rev_app in H.
    assert (Hl : last_char (PyStr.lstrip (String.rev_app (PyStr.lstrip s) ""))
                 = Some c).
    { destruct (PyStr.lstrip (String.rev_app (PyStr.lstrip s) ""));
        [discriminate|exact H]. }
    apply last_char_lstrip in Hl. rewrite last_char_rev_app in Hl.
    exact (first_char_lstrip s c Hl).
  - rewrite last_char_rev_app in H.
    exact (first_char_lstrip _ c H).
Qed.

Lemma line_value_clean (line : string) :
  PyStr.has_char PyStr.newline line = false -> clean_value (line_value line).
Proof.
  intros Hnl. unfold clean_value, line_value.
  split; [apply has_char_strip, before_first_no_sep|].
  split; [apply has_char_strip, has_char_before_first, has_char_after_first,
          Hnl|].
  apply strip_trimmed.
Qed.

Lemma line_key_known (line key : string) :
  line_key line = Some key ->
  key ∈ ["total_files"; "created_files"; "deleted_files"; "transferred_size";
         "total_size"].
Proof.
  unfold line_key, stat_labels. cbn [find fst snd].
  repeat match goal with
    | |- context [if PyStr.contains ?l line then _ else _] =>
        destruct (PyStr.contains l line);
        [ intros [= <-]; set_solver | ]
    end.
  discriminate.
Qed.

(** X8: [parse_rsync_stats] never raises, stores nothing under a key other
    than its five, and every value it stores is trimmed (no whitespace at
    either end) and contains neither a colon nor a line break. *)
Theorem parse_rsync_stats_values (output : string) :
  exists stats,
    parse_rsync_stats output = Ret stats
    /\ forall key v,
         stats !! key = Some v ->
         key ∈ ["total_files"; "created_files"; "deleted_files";
                "transferred_size"; "total_size"]
         /\ clean_value v.
Proof.
  exists (fold_left record_line (PyStr.split PyStr.newline output) ∅).
  split; [apply parse_lines_fold|].
  intros key v Hv.
  apply fold_record_lookup in Hv as (before & line & after & Hsplit & Hk & -> & _).
  split; [exact (line_key_known line key Hk)|].
  apply line_value_clean.
  pose proof (split_pieces_no_sep PyStr.newline output) as Hall.
  rewrite Hsplit in Hall. apply Forall_app in Hall as [_ Hall].
  inversion Hall; assumption.
Qed.

Lemma split_app_sep (sep : ascii) (a b : string) :
  PyStr.split sep (a +:+ String sep b) = PyStr.split sep a ++ PyStr.split sep b.
Proof.
  induction a as [|c a IH].
  - change ("" +:+ String sep b) with (String sep b). simpl.
    rewrite Ascii.eqb_refl. reflexivity.
  - change (String c a +:+ String sep b) with (String c (a +:+ String sep b)).
    simpl. rewrite IH. destruct (Ascii.eqb c sep); [reflexivity|].
    destruct (PyStr.split sep a) as [|piece rest] eqn:Hs; [|reflexivity].
    exfalso. exact (PyStrFacts.split_nonempty sep a Hs).
Qed.

Lemma record_line_union (m : gmap string string) (line : string) :
  record_line m line = record_line ∅ line ∪ m.
Proof.
  unfold record_line. destruct (line_key line) as [key|].
  - rewrite insert_empty. apply insert_union_singleton_l.
  - symmetry. apply (left_id_L ∅ (∪)).
Qed.

Lemma fold_record_union (lines : list string) (m : gmap string string) :
  fold_left record_line lines m = fold_left record_line lines ∅ ∪ m.
Proof.
  revert m. induction lines as [|l ls IH]; intros m; simpl.
  - symmetry. apply (left_id_L ∅ (∪)).
  - rewrite (IH (record_line m l)), (IH (record_line ∅ l)).
    rewrite (record_line_union m l). apply (assoc_L (∪)).
Qed.

(** X9: parsing two texts joined by a line break gives the statistics of the
    second text laid over those of the first: keys of the second win, keys
    only in the first are kept. *)
Theorem parse_rsync_stats_concat (a b : string) :
  exists stats_a stats_b,
    parse_rsync_stats a = Ret stats_a
    /\ parse_rsync_stats b = Ret stats_b
    /\ parse_rsync_stats (a +:+ nl +:+ b) = Ret (stats_b ∪ stats_a).
Proof.
  exists (fold_left record_line (PyStr.split PyStr.newline a) ∅),
         (fold_left record_line (PyStr.split PyStr.newline b) ∅).
  unfold parse_rsync_stats. rewrite !parse_lines_fold.
  repeat split.
  change (nl +:+ b) with (String PyStr.newline b).
  rewrite split_app_sep, fold_left_app, fold_record_union. reflexivity.
Qed.

(** ** The notifier *)

Ltac close_session :=
  eexists _, _; (split; [reflexivity|]); unfold_m; rewrite <- ?app_assoc;
  (split; [reflexivity|]); cbn;
  repeat split;
    try reflexivity; try discriminate; try lia;
    try (eexists; reflexivity);
    try (repeat constructor; fail);
    try (intros _; split; [discriminate|]);
    try (left; discriminate);
    try (right; left; reflexivity);
    try (right; right; apply list_elem_of_here).

(** The session of [send_notification] with the relay, in full. *)
Lemma send_notification_session (env : Env) (cfg : Config)
      (failed_jobs : list RunResult) (s : State) :
  exists s' evs,
    send_notification env cfg failed_jobs s = (Ret tt, s')
    /\ trace s' = trace s ++ evs
    /\ smtp_calls evs `prefix_of` smtp_protocol cfg failed_jobs
    /\ Forall (fun out => out = None) (removelast (map snd (smtp_log evs)))
    /\ (length (mails evs) <= 1)%nat
    /\ runs evs = []
    /\ writes evs = []
    /\ status s' = status s
    /\ status_file s' = status_file s
    /\ config_file s' = config_file s
    /\ (failed_jobs = [] -> evs = [])
    /\ (failed_jobs <> [] ->
        evs <> []
        /\ (smtp_calls evs <> []
            \/ logged WARNING evs
               = ["No email configuration found, skipping notification"]
            \/ "Failed to send notification email: {}" ∈ logged ERROR evs)).
Proof.
  unfold send_notification, smtp_protocol, notification_mail.
  destruct failed_jobs as [|r0 rest].
  { exists s, []. rewrite app_nil_r. cbn.
    repeat split; try reflexivity; try congruence; try lia;
      [apply prefix_nil|constructor]. }
  set (failed := r0 :: rest). unfold dict_item.
  destruct (PyStr.truthy (default "" (email (notification_of cfg)))) eqn:Hem;
    cbn [negb]; unfold_m; [|close_session; apply prefix_nil].
  destruct (smtp_user (notification_of cfg)) as [user|]; unfold_m;
    [|close_session; apply prefix_nil].
  destruct (email (notification_of cfg)) as [to|]; [|discriminate]. unfold_m.
  destruct (smtp_server (notification_of cfg)) as [host|]; unfold_m;
    [|close_session; apply prefix_nil].
  destruct (smtp_port (notification_of cfg)) as [port|]; unfold_m;
    [|close_session; apply prefix_nil].
  step_smtp; [close_session|].
  step_smtp; [close_session|].
  destruct (smtp_pass (notification_of cfg)) as [pass|]; unfold_m;
    [|close_session].
  step_smtp; [close_session|].
  step_smtp; [close_session|].
  step_smtp; close_session.
Qed.

(** X10: with a non-empty list, all five notification settings present, a
    non-empty recipient and a relay that accepts every call,
    [send_notification] runs the whole session in order (connect to the
    configured host and port, STARTTLS, login with the configured user and
    password, one message from the user to the recipient with the subject
    counting the failed jobs, quit) and logs the success. *)
Theorem notification_delivered
        (env : Env) (cfg : Config) (failed_jobs : list RunResult) (s : State)
        (host user pass to : string) (port : Z) :
  failed_jobs <> [] ->
  notification_of cfg
  = mkNotification (Some host) (Some port) (Some user) (Some pass) (Some to) ->
  to <> "" ->
  relay_up env ->
  exists s',
    send_notification env cfg failed_jobs s = (Ret tt, s')
    /\ trace s'
       = trace s
         ++ [EvSmtp (SmtpConnect host port) None;
             EvSmtp SmtpStartTls None;
             EvSmtp (SmtpLogin user pass) None;
             EvSmtp (SmtpSendMessage
                       (mkMail user to (compose_subject failed_jobs)
                               (compose_body failed_jobs))) None;
             EvSmtp SmtpQuit None;
             EvLog INFO "Notification email sent successfully" []].
Proof.
  intros Hne Hcfg Hto Hup. unfold send_notification.
  destruct failed_jobs as [|r0 rest]; [congruence|].
  rewrite Hcfg. cbn [email smtp_user smtp_server smtp_port smtp_pass dict_item
                     from_option id].
  destruct to as [|c to]; [congruence|]. cbn [PyStr.truthy negb].
  unfold_m. rewrite ?Hup. unfold_m. rewrite ?Hup. unfold_m.
  eexists. split; [reflexivity|]. unfold_m. rewrite <- !app_assoc.
  reflexivity.
Qed.

Lemma notification_delivered_witness :
  exists s',
    send_notification env_timeout mail_cfg [timed_out_result] mail_state
    = (Ret tt, s')
    /\ trace s'
       = trace mail_state
         ++ [EvSmtp (SmtpConnect "smtp.example.org" 587) None;
             EvSmtp SmtpStartTls None;
             EvSmtp (SmtpLogin "backup@example.org" "secret") None;
             EvSmtp (SmtpSendMessage
                       (mkMail "backup@example.org" "ops@example.org"
                               (compose_subject [timed_out_result])
                               (compose_body [timed_out_result]))) None;
             EvSmtp SmtpQuit None;
             EvLog INFO "Notification email sent successfully" []].
Proof.
  apply (notification_delivered env_timeout mail_cfg [timed_out_result]
           mail_state "smtp.example.org" "backup@example.org" "secret"
           "ops@example.org" 587).
  - discriminate.
  - reflexivity.
  - discriminate.
  - intros tr act. reflexivity.
Defined.

(** X11: whatever the settings and the relay do, the calls
    [send_notification] makes on the relay are an initial stretch of the
    session connect, STARTTLS, login, send, quit, and every call but the last
    one made has succeeded; so a message is handed over only after a
    successful connect, STARTTLS and login, and at most one message is
    sent. *)
Theorem relay_session_discipline
        (env : Env) (cfg : Config) (failed_jobs : list RunResult) (s : State) :
  exists s' evs,
    send_notification env cfg failed_jobs s = (Ret tt, s')
    /\ trace s' = trace s ++ evs
    /\ smtp_calls evs `prefix_of` smtp_protocol cfg failed_jobs
    /\ Forall (fun out => out = None) (removelast (map snd (smtp_log evs)))
    /\ (length (mails evs) <= 1)%nat.
Proof.
  destruct (send_notification_session env cfg failed_jobs s)
    as (s' & evs & Hsend & Htr & Hpre & Hok & Hone & _).
  exists s', evs. repeat split; assumption.
Qed.

(** X12: with a non-empty list and a recipient set, a missing smtp_user,
    smtp_server or smtp_port setting stops the notification before the relay
    is contacted: the KeyError is caught and logged, naming the first
    missing key in the order user, server, port, and nothing else
    happens. *)
Theorem notification_missing_setting
        (env : Env) (cfg : Config) (failed_jobs : list RunResult) (s : State) :
  failed_jobs <> [] ->
  ~ email_unset cfg ->
  smtp_user (notification_of cfg) = None
  \/ smtp_server (notification_of cfg) = None
  \/ smtp_port (notification_of cfg) = None ->
  exists key,
    send_notification env cfg failed_jobs s
    = (Ret tt,
       emit (EvLog ERROR "Failed to send notification email: {}"
                   [AStr ("'" +:+ key +:+ "'")]) s)
    /\ key = match smtp_user (notification_of cfg),
                    smtp_server (notification_of cfg) with
             | None, _ => "smtp_user"
             | Some _, None => "smtp_server"
             | Some _, Some _ => "smtp_port"
             end.
Proof.
  intros Hne Hset Hmiss. unfold email_unset in Hset.
  apply not_false_is_true in Hset.
  unfold send_notification. destruct failed_jobs as [|r0 rest]; [congruence|].
  unfold dict_item. rewrite Hset. cbn [negb]. unfold_m.
  destruct (smtp_user (notification_of cfg)) as [user|]; unfold_m;
    [|eexists; split; reflexivity].
  destruct (email (notification_of cfg)) as [to|]; [|discriminate]. unfold_m.
  destruct (smtp_server (notification_of cfg)) as [host|]; unfold_m;
    [|eexists; split; reflexivity].
  destruct (smtp_port (notification_of cfg)) as [port|]; unfold_m;
    [|eexists; split; reflexivity].
  destruct Hmiss as [H|[H|H]]; discriminate.
Qed.

Lemma notification_missing_setting_witness :
  exists key,
    send_notification env_ok recipient_only_cfg [timed_out_result] fresh_state
    = (Ret tt,
       emit (EvLog ERROR "Failed to send notification email: {}"
                   [AStr ("'" +:+ key +:+ "'")]) fresh_state)
    /\ key = match smtp_user (notification_of recipient_only_cfg),
                    smtp_server (notification_of recipient_only_cfg) with
             | None, _ => "smtp_user"
             | Some _, None => "smtp_server"
             | Some _, Some _ => "smtp_port"
             end.
Proof.
  apply (notification_missing_setting env_ok recipient_only_cfg
           [timed_out_result] fresh_state).
  - discriminate.
  - discriminate.
  - left. reflexivity.
Defined.

(** X13: a missing smtp_pass setting is only noticed after the relay has
    been contacted: with the other settings present and the relay accepting
    the calls, the session is opened (connect, STARTTLS), no login is tried,
    no message is sent, the session is not closed by a quit, and the KeyError
    is logged. *)
Theorem notification_missing_password
        (env : Env) (cfg : Config) (failed_jobs : list RunResult) (s : State)
        (host user to : string) (port : Z) :
  failed_jobs <> [] ->
  notification_of cfg
  = mkNotification (Some host) (Some port) (Some user) None (Some to) ->
  to <> "" ->
  relay_up env ->
  exists s',
    send_notification env cfg failed_jobs s = (Ret tt, s')
    /\ trace s'
       = trace s
         ++ [EvSmtp (SmtpConnect host port) None;
             EvSmtp SmtpStartTls None;
             EvLog ERROR "Failed to send notification email: {}"
                   [AStr "'smtp_pass'"]].
Proof.
  intros Hne Hcfg Hto Hup. unfold send_notification.
  destruct failed_jobs as [|r0 rest]; [congruence|].
  rewrite Hcfg. cbn [email smtp_user smtp_server smtp_port smtp_pass dict_item
                     from_option id].
  destruct to as [|c to]; [congruence|]. cbn [PyStr.truthy negb].
  unfold_m. rewrite ?Hup. unfold_m. rewrite ?Hup. unfold_m.
  eexists. split; [reflexivity|]. unfold_m. rewrite <- !app_assoc.
  reflexivity.
Qed.

Lemma notification_missing_password_witness :
  exists s',
    send_notification env_ok no_pass_cfg [timed_out_result] fresh_state
    = (Ret tt, s')
    /\ trace s'
       = trace fresh_state
         ++ [EvSmtp (SmtpConnect "smtp.example.org" 587) None;
             EvSmtp SmtpStartTls None;
             EvLog ERROR "Failed to send notification email: {}"
                   [AStr "'smtp_pass'"]].
Proof.
  apply (notification_missing_password env_ok no_pass_cfg [timed_out_result]
           fresh_state "smtp.example.org" "backup@example.org"
           "ops@example.org" 587).
  - discriminate.
  - reflexivity.
  - discriminate.
  - intros tr act. reflexivity.
Defined.

(** ** The batch, phase by phase *)

(** [save_status] in full. *)
Lemma save_status_events (env : Env) (s : State) :
  exists s',
    save_status env s = (Ret tt, s')
    /\ status s' = status s
    /\ config_file s' = config_file s
    /\ trace s'
       = trace s
         ++ EvWriteStatus (status s) (env_write env (trace s) (status s))
            :: match env_write env (trace s) (status s) with
               | Written => []
               | OpenFailed e | DumpFailed e =>
                   [EvLog ERROR "Failed to save status: {}" [AStr (exc_str e)]]
               end.
Proof.
  unfold save_status. unfold_m.
  destruct (env_write env (trace s) (status s)) as [|e|e]; unfold_m;
    eexists; (split; [reflexivity|]); unfold_m; rewrite <- ?app_assoc;
    repeat split; reflexivity.
Qed.

Lemma record_results_snoc (rs : list RunResult) (r : RunResult)
      (m : gmap string RunResult) :
  record_results (r :: rs) m = record_results rs (<[rr_name r := r]> m).
Proof. reflexivity. Qed.

(** The loop in full: results, processes, entries stored and events. *)
Lemma run_jobs_loop_full (env : Env) (cfg : Config) (todo : list JobSpec) :
  forall (successful_jobs failed_jobs : list RunResult) (s : State),
  exists rs s' evs,
    run_jobs_loop env cfg todo successful_jobs failed_jobs s
    = (Ret (successful_jobs ++ succeeded rs, failed_jobs ++ failures rs), s')
    /\ Forall2 result_of (enabled_jobs todo) rs
    /\ Forall2 (run_of cfg) (enabled_jobs todo) (runs evs)
    /\ Forall2 records rs (runs evs)
    /\ jobs (status s') = record_results rs (jobs (status s))
    /\ last_run (status s') = last_run (status s)
    /\ total_runs (status s') = total_runs (status s)
    /\ last_summary (status s') = last_summary (status s)
    /\ status_file s' = status_file s
    /\ config_file s' = config_file s
    /\ trace s' = trace s ++ evs
    /\ Forall job_event evs.
Proof.
  induction todo as [|job rest IH]; intros succ fail s.
  - exists [], s, []. cbn. rewrite !app_nil_r.
    repeat split; try reflexivity; constructor.
  - cbn [run_jobs_loop enabled_jobs List.filter].
    destruct (is_enabled job) eqn:Hen; cbn [negb].
    + destruct (run_rsync_full env cfg job s)
        as (r & s1 & evs1 & Hrun & Hres & Hok & Hst & Hsf & Hcf & Htr
            & Hruns & Hev).
      rewrite (bind_ret_eq _ _ _ _ _ Hrun).
      assert (Hacc : exists rs s' evs,
        (if rr_success r
         then run_jobs_loop env cfg rest (succ ++ [r]) fail
         else run_jobs_loop env cfg rest succ (fail ++ [r])) s1
        = (Ret (succ ++ succeeded (r :: rs), fail ++ failures (r :: rs)), s')
        /\ Forall2 result_of (enabled_jobs rest) rs
        /\ Forall2 (run_of cfg) (enabled_jobs rest) (runs evs)
        /\ Forall2 records rs (runs evs)
        /\ jobs (status s') = record_results rs (jobs (status s1))
        /\ last_run (status s') = last_run (status s1)
        /\ total_runs (status s') = total_runs (status s1)
        /\ last_summary (status s') = last_summary (status s1)
        /\ status_file s' = status_file s1
        /\ config_file s' = config_file s1
        /\ trace s' = trace s1 ++ evs
        /\ Forall job_event evs).
      { unfold succeeded, failures. cbn [List.filter].
        destruct (rr_success r); cbn [negb].
        - destruct (IH (succ ++ [r]) fail s1) as (rs & s' & evs & Hloop & H).
          exists rs, s', evs. split; [|exact H].
          rewrite Hloop, <- app_assoc. reflexivity.
        - destruct (IH succ (fail ++ [r]) s1) as (rs & s' & evs & Hloop & H).
          exists rs, s', evs. split; [|exact H].
          rewrite Hloop, <- app_assoc. reflexivity. }
      destruct Hacc as (rs & s' & evs & Hloop & H1 & H2 & H3 & Hjobs & Hlr
                        & Htot & Hsum & Hsf' & Hcf' & Htr' & Hev').
      exists (r :: rs), s', (evs1 ++ evs).
      rewrite runs_app, Hruns, record_results_snoc.
      rewrite Hjobs, Hlr, Htot, Hsum, Hsf', Hcf', Htr', Hst, Hsf, Hcf, Htr,
        app_assoc.
      pose proof Hres as (Hname & _).
      cbn [jobs last_run total_runs last_summary set_job]. rewrite Hname.
      split; [exact Hloop|].
      split; [constructor; assumption|].
      split; [constructor; [reflexivity|assumption]|].
      split; [constructor; [exact Hok|assumption]|].
      repeat split; try reflexivity.
      apply Forall_app. split; assumption.
    + destruct (IH succ fail
                   (emit (EvLog INFO "Skipping disabled job: {}"
                                [AStr (job_name job)]) s))
        as (rs & s' & evs & Hloop & H1 & H2 & H3 & Hjobs & Hlr & Htot & Hsum
            & Hsf' & Hcf' & Htr' & Hev').
      exists rs, s',
        (EvLog INFO "Skipping disabled job: {}" [AStr (job_name job)] :: evs).
      unfold_m. rewrite Hloop, Htr'. cbn [emit trace].
      rewrite <- app_assoc.
      repeat split; try reflexivity; try assumption.
      constructor; [exact I|assumption].
Qed.

(** A batch as the succession of its phases: the loop, the single write, the
    notification and the closing log lines. *)
Lemma run_all_jobs_phases (env : Env) (cfg : Config) (s : State) :
  exists rs s1 s' evs1 evs2 evs3 logs,
    run_jobs_loop env cfg (sync_jobs cfg) [] []
                  (emit (EvLog INFO "Starting backup sync run" []) s)
    = (Ret (succeeded rs, failures rs), s1)
    /\ run_all_jobs env cfg s = (Ret (Nat.eqb (length (failures rs)) 0), s')
    /\ trace s'
       = trace s ++ [EvLog INFO "Starting backup sync run" []]
         ++ evs1 ++ evs2 ++ evs3 ++ logs
    /\ Forall2 result_of (enabled_jobs (sync_jobs cfg)) rs
    /\ Forall2 (run_of cfg) (enabled_jobs (sync_jobs cfg)) (runs evs1)
    /\ Forall2 records rs (runs evs1)
    /\ Forall job_event evs1
    /\ jobs (status s1) = record_results rs (jobs (status s))
    /\ total_runs (status s1) = total_runs (status s)
    /\ status s'
       = batch_document
           (env_now env (trace s ++ [EvLog INFO "Starting backup sync run" []]))
           rs (status s1)
    /\ evs2
       = EvWriteStatus (status s')
           (env_write env
              (trace s ++ [EvLog INFO "Starting backup sync run" []] ++ evs1)
              (status s'))
         :: match env_write env
                    (trace s ++ [EvLog INFO "Starting backup sync run" []]
                       ++ evs1) (status s') with
            | Written => []
            | OpenFailed e | DumpFailed e =>
                [EvLog ERROR "Failed to save status: {}" [AStr (exc_str e)]]
            end
    /\ runs evs3 = []
    /\ writes evs3 = []
    /\ smtp_calls evs3 `prefix_of` smtp_protocol cfg (failures rs)
    /\ (failures rs = [] -> evs3 = [])
    /\ (failures rs <> [] ->
        smtp_calls evs3 <> []
        \/ logged WARNING evs3
           = ["No email configuration found, skipping notification"]
        \/ "Failed to send notification email: {}" ∈ logged ERROR evs3)
    /\ (exists args1 args2,
          logs = [EvLog INFO "Backup sync completed in {:.1f}s" args1;
                  EvLog INFO "Results: {} successful, {} failed" args2]).
Proof.
  unfold run_all_jobs. unfold_m.
  destruct (run_jobs_loop_full env cfg (sync_jobs cfg) [] []
              (emit (EvLog INFO "Starting backup sync run" []) s))
    as (rs & s1 & evs1 & Hloop & H1 & H2 & H3 & Hjobs & Hlr & Htot & Hsum
        & Hsf & Hcf & Htr & Hev).
  rewrite Hloop. unfold_m. cbn [app].
  match goal with
  | |- context [save_status env ?st] =>
      destruct (save_status_events env st) as (s2 & Hsave & Hst2 & Hcf2 & Htr2)
  end.
  rewrite Hsave. cbn [app snd fst].
  pose proof (notify_guard env cfg (failures rs) s2) as Hn. unfold ret in Hn.
  rewrite Hn. clear Hn.
  destruct (send_notification_session env cfg (failures rs) s2)
    as (s3 & evs3 & Hsend & Htr3 & Hpre & _ & _ & Hruns3 & Hwr3 & Hst3 & _ & _
        & Hnil & Hact).
  rewrite Hsend. unfold_m.
  cbn [status status_file config_file trace with_status emit total_runs
       last_summary last_run set_last_summary set_total_runs set_last_run] in *.
  rewrite <- Hst2 in Htr2.
  exists rs, s1. eexists.
  exists evs1.
  exists (EvWriteStatus (status s2) (env_write env (trace s1) (status s2))
          :: match env_write env (trace s1) (status s2) with
             | Written => []
             | OpenFailed e | DumpFailed e =>
                 [EvLog ERROR "Failed to save status: {}" [AStr (exc_str e)]]
             end).
  exists evs3.
  exists [EvLog INFO "Backup sync completed in {:.1f}s"
            [ADur (DurMeasured
                     (env_now env (trace s3)
                      - env_now env
                          (trace s ++
                           [EvLog INFO "Starting backup sync run" []])))];
          EvLog INFO "Results: {} successful, {} failed"
            [ALen (length (succeeded rs)); ALen (length (failures rs))]].
  split; [reflexivity|]. split; [reflexivity|]. unfold_m.
  split.
  { rewrite Htr3, Htr2, Htr, <- !app_assoc. cbn [app]. reflexivity. }
  repeat (split; [assumption|]).
  split; [rewrite Hst3, Hst2; reflexivity|].
  split.
  { rewrite Hst3, Htr, <- app_assoc. reflexivity. }
  repeat (split; [assumption|]).
  split; [intros Hne; apply (Hact Hne)|].
  eexists _, _. reflexivity.
Qed.

Lemma smtp_calls_app (l1 l2 : list Event) :
  smtp_calls (l1 ++ l2) = smtp_calls l1 ++ smtp_calls l2.
Proof. apply omap_app. Qed.

Lemma logged_app (lvl : Level) (l1 l2 : list Event) :
  logged lvl (l1 ++ l2) = logged lvl l1 ++ logged lvl l2.
Proof. apply omap_app. Qed.


(** The events of the write phase. *)
Lemma save_events_quiet (doc : StatusDocument) (out : WriteOutcome) :
  forall evs,
    evs = EvWriteStatus doc out
          :: match out with
             | Written => []
             | OpenFailed e | DumpFailed e =>
                 [EvLog ERROR "Failed to save status: {}" [AStr (exc_str e)]]
             end ->
    writes evs = [(doc, out)]
    /\ runs evs = []
    /\ smtp_calls evs = []
    /\ logged WARNING evs = []
    /\ ("Failed to send notification email: {}" ∉ logged ERROR evs).
Proof.
  intros evs ->. destruct out; cbn; repeat split; try reflexivity;
    intros H; repeat (apply elem_of_cons in H as [H|H]; [discriminate|]);
    inversion H.
Qed.

(** The closing log lines of a batch. *)
Lemma closing_lines_quiet (logs : list Event) :
  (exists args1 args2,
      logs = [EvLog INFO "Backup sync completed in {:.1f}s" args1;
              EvLog INFO "Results: {} successful, {} failed" args2]) ->
  writes logs = []
  /\ runs logs = []
  /\ smtp_calls logs = []
  /\ logged WARNING logs = []
  /\ logged ERROR logs = [].
Proof. intros (a1 & a2 & ->). repeat split; reflexivity. Qed.

(** X14: a batch writes the status file exactly once; the document written
    is the final status of the batch (counter, summary and all results in
    it), and the write comes after every child process of the batch and
    before any call on the mail relay. *)
Theorem batch_writes_once (env : Env) (cfg : Config) (s : State) :
  exists b s' before after out,
    run_all_jobs env cfg s = (Ret b, s')
    /\ trace s' = trace s ++ before ++ EvWriteStatus (status s') out :: after
    /\ writes before = []
    /\ writes after = []
    /\ Forall2 (run_of cfg) (enabled_jobs (sync_jobs cfg)) (runs before)
    /\ runs after = []
    /\ smtp_calls before = [].
Proof.
  destruct (run_all_jobs_phases env cfg s)
    as (rs & s1 & s' & evs1 & evs2 & evs3 & logs & _ & Hrun & Htr & _ & H2 & _
        & Hev1 & _ & _ & _ & Hevs2 & Hruns3 & Hwr3 & _ & _ & _ & Hlogs).
  destruct (job_events_quiet evs1 Hev1) as (Hw1 & _ & Hs1 & _).
  destruct (closing_lines_quiet logs Hlogs) as (Hwl & Hrl & _).
  set (out := env_write env
                (trace s ++ [EvLog INFO "Starting backup sync run" []] ++ evs1)
                (status s')) in *.
  set (savelogs := match out with
                   | Written => []
                   | OpenFailed e | DumpFailed e =>
                       [EvLog ERROR "Failed to save status: {}"
                              [AStr (exc_str e)]]
                   end) in *.
  assert (Hsl : writes savelogs = [] /\ runs savelogs = []).
  { subst savelogs. destruct out; split; reflexivity. }
  destruct Hsl as (Hws & Hrs).
  exists (Nat.eqb (length (failures rs)) 0), s',
    ([EvLog INFO "Starting backup sync run" []] ++ evs1),
    (savelogs ++ evs3 ++ logs), out.
  split; [exact Hrun|].
  split.
  { rewrite Htr, Hevs2. rewrite <- !app_assoc. reflexivity. }
  rewrite !writes_app, !runs_app, smtp_calls_app, Hw1, Hs1, Hwr3, Hwl, Hruns3,
    Hrl, Hws, Hrs.
  repeat split; try reflexivity. exact H2.
Qed.

(** X15: a batch without any enabled job (an empty job list, or every job
    disabled) starts no child process and calls no relay, returns true,
    leaves the recorded results as they were, records the summary 0/0/0 and
    still counts as a run and writes the status file. *)
Theorem batch_without_jobs (env : Env) (cfg : Config) (s : State) :
  enabled_jobs (sync_jobs cfg) = [] ->
  exists s' evs out,
    run_all_jobs env cfg s = (Ret true, s')
    /\ trace s' = trace s ++ evs
    /\ runs evs = []
    /\ smtp_calls evs = []
    /\ writes evs = [(status s', out)]
    /\ jobs (status s') = jobs (status s)
    /\ last_summary (status s') = Some (mkSummary 0 0 0)
    /\ total_runs (status s') = Some (default 0 (total_runs (status s)) + 1).
Proof.
  intros Hnone.
  destruct (run_all_jobs_phases env cfg s)
    as (rs & s1 & s' & evs1 & evs2 & evs3 & logs & _ & Hrun & Htr & H1 & H2 & _
        & Hev1 & Hjobs & Htot & Hdoc & Hevs2 & _ & _ & _ & Hnil & _ & Hlogs).
  rewrite Hnone in H1, H2. inversion H1; subst rs.
  assert (Hr1 : runs evs1 = []) by (inversion H2; reflexivity).
  destruct (job_events_quiet evs1 Hev1) as (Hw1 & _ & Hs1 & _).
  destruct (closing_lines_quiet logs Hlogs) as (Hwl & Hrl & Hsl & _).
  rewrite (Hnil eq_refl) in Htr.
  destruct (save_events_quiet (status s') _ evs2 Hevs2)
    as (Hw2 & Hr2 & Hs2 & _).
  eexists s', _, _. split; [exact Hrun|]. split; [exact Htr|].
  rewrite !runs_app, !smtp_calls_app, !writes_app, Hr1, Hw1, Hs1, Hw2, Hr2,
    Hs2, Hwl, Hrl, Hsl.
  cbn [runs smtp_calls writes omap app mbind].
  rewrite Hdoc. cbn. rewrite Hjobs, Htot.
  repeat split; reflexivity.
Qed.

Lemma batch_without_jobs_witness :
  exists s' evs out,
    run_all_jobs env_ok idle_cfg earlier_state = (Ret true, s')
    /\ trace s' = trace earlier_state ++ evs
    /\ runs evs = []
    /\ smtp_calls evs = []
    /\ writes evs = [(status s', out)]
    /\ jobs (status s') = jobs (status earlier_state)
    /\ last_summary (status s') = Some (mkSummary 0 0 0)
    /\ total_runs (status s')
       = Some (default 0 (total_runs (status earlier_state)) + 1).
Proof.
  apply (batch_without_jobs env_ok idle_cfg earlier_state). reflexivity.
Defined.

Lemma record_results_app (rs1 rs2 : list RunResult)
      (m : gmap string RunResult) :
  record_results (rs1 ++ rs2) m = record_results rs2 (record_results rs1 m).
Proof. apply fold_left_app. Qed.

Lemma record_results_other (rs : list RunResult) (m : gmap string RunResult)
      (name : string) :
  Forall (fun r => rr_name r <> name) rs ->
  record_results rs m !! name = m !! name.
Proof.
  revert m. induction rs as [|r rs IH]; intros m H; [reflexivity|].
  inversion H as [|? ? Hr Hrs]; subst.
  rewrite record_results_snoc, (IH _ Hrs). apply lookup_insert_ne, Hr.
Qed.

Lemma record_results_member (rs : list RunResult) (m : gmap string RunResult)
      (r : RunResult) :
  r ∈ rs ->
  exists r', record_results rs m !! rr_name r = Some r'
             /\ r' ∈ rs /\ rr_name r' = rr_name r.
Proof.
  induction rs as [|x rs IH] using rev_ind; intros Hin; [inversion Hin|].
  rewrite record_results_app. cbn [record_results fold_left].
  destruct (decide (rr_name x = rr_name r)) as [Heq|Hne].
  - exists x. rewrite <- Heq, lookup_insert_eq.
    split; [reflexivity|]. split; [|reflexivity].
    apply elem_of_app. right. apply list_elem_of_here.
  - rewrite lookup_insert_ne by exact Hne.
    apply elem_of_app in Hin as [Hin|Hin].
    + destruct (IH Hin) as (r' & Hl & Hr' & Hn).
      exists r'. repeat split; try assumption. apply elem_of_app. left. exact Hr'.
    + apply list_elem_of_singleton in Hin. subst. congruence.
Qed.

(** X16: after a batch, the status holds a result for every enabled job,
    stored under the job's name and belonging to an enabled job of that
    name, while the entry of
    every name that is not an enabled job's is what it was before the batch:
    results of disabled or removed jobs are neither dropped nor touched. *)
Theorem batch_results_recorded (env : Env) (cfg : Config) (s : State) :
  exists b s',
    run_all_jobs env cfg s = (Ret b, s')
    /\ (forall job, job ∈ enabled_jobs (sync_jobs cfg) ->
          exists r job',
            jobs (status s') !! job_name job = Some r
            /\ job' ∈ enabled_jobs (sync_jobs cfg)
            /\ job_name job' = job_name job
            /\ result_of job' r)
    /\ (forall name,
          name ∉ map job_name (enabled_jobs (sync_jobs cfg)) ->
          jobs (status s') !! name = jobs (status s) !! name).
Proof.
  destruct (run_all_jobs_phases env cfg s)
    as (rs & s1 & s' & evs1 & evs2 & evs3 & logs & _ & Hrun & _ & H1 & _ & _
        & _ & Hjobs & _ & Hdoc & _).
  exists (Nat.eqb (length (failures rs)) 0), s'. split; [exact Hrun|].
  assert (Hj : jobs (status s') = record_results rs (jobs (status s))).
  { rewrite Hdoc. cbn. exact Hjobs. }
  rewrite Hj. split.
  - intros job Hin.
    apply list_elem_of_lookup in Hin as [i Hi].
    destruct (Forall2_lookup_l _ _ _ _ _ H1 Hi) as (r & Hr & (Hn & Hs & Hd)).
    destruct (record_results_member rs (jobs (status s)) r)
      as (r' & Hl & Hr' & Hn').
    { apply list_elem_of_lookup. eauto. }
    apply list_elem_of_lookup in Hr' as [k Hk].
    destruct (Forall2_lookup_r _ _ _ _ _ H1 Hk) as (job' & Hjob' & Hres').
    exists r', job'. rewrite <- Hn, <- Hn'.
    split; [rewrite Hn'; exact Hl|].
    split; [apply list_elem_of_lookup; eauto|].
    split; [destruct Hres' as (Hx & _); congruence|exact Hres'].
  - intros name Hnot. apply record_results_other.
    apply Forall_forall. intros r Hr Heq.
    apply Hnot. apply list_elem_of_lookup in Hr as [k Hk].
    destruct (Forall2_lookup_r _ _ _ _ _ H1 Hk) as (job' & Hjob' & (Hn & _)).
    apply list_elem_of_fmap. exists job'.
    split; [congruence|]. apply list_elem_of_lookup. eauto.
Qed.

(** X17: the notifier acts exactly when a job of the batch failed: a batch
    that returns true makes no call on the relay and logs neither the
    notifier's warning nor its error; a batch that returns false either
    calls the relay, or logs the missing-recipient warning, or logs the
    notifier's error. *)
Theorem notifier_acts_iff_failure (env : Env) (cfg : Config) (s : State) :
  exists b s' evs,
    run_all_jobs env cfg s = (Ret b, s')
    /\ trace s' = trace s ++ evs
    /\ (b = true ->
        smtp_calls evs = []
        /\ logged WARNING evs = []
        /\ ("Failed to send notification email: {}" ∉ logged ERROR evs))
    /\ (b = false ->
        smtp_calls evs <> []
        \/ logged WARNING evs
           = ["No email configuration found, skipping notification"]
        \/ "Failed to send notification email: {}" ∈ logged ERROR evs).
Proof.
  destruct (run_all_jobs_phases env cfg s)
    as (rs & s1 & s' & evs1 & evs2 & evs3 & logs & _ & Hrun & Htr & _ & _ & _
        & Hev1 & _ & _ & _ & Hevs2 & _ & _ & _ & Hnil & Hact & Hlogs).
  destruct (job_events_quiet evs1 Hev1) as (_ & _ & Hs1 & _ & Hwn1 & Her1 & _).
  destruct (closing_lines_quiet logs Hlogs) as (_ & _ & Hsl & Hwnl & Herl).
  destruct (save_events_quiet (status s') _ evs2 Hevs2)
    as (_ & _ & Hs2 & Hwn2 & Her2).
  exists (Nat.eqb (length (failures rs)) 0), s',
    ([EvLog INFO "Starting backup sync run" []]
       ++ evs1 ++ evs2 ++ evs3 ++ logs).
  split; [exact Hrun|]. split; [exact Htr|].
  rewrite !smtp_calls_app, !logged_app, Hs1, Hs2, Hsl, Hwn1, Hwn2, Hwnl, Herl.
  cbn [smtp_calls logged omap app mbind]. rewrite !app_nil_r.
  split.
  - intros Hb. apply Nat.eqb_eq in Hb.
    assert (Hf : failures rs = []) by (destruct (failures rs); [reflexivity|discriminate]).
    rewrite (Hnil Hf). cbn. rewrite app_nil_r.
    repeat split; try reflexivity.
    rewrite !elem_of_app. pose proof (not_elem_of_nil "Failed to send notification email: {}").
    tauto.
  - intros Hb. apply Nat.eqb_neq in Hb.
    assert (Hf : failures rs <> []) by (intros Hf; rewrite Hf in Hb; apply Hb; reflexivity).
    destruct (Hact Hf) as [H|[H|H]]; [left; exact H|right; left; exact H|].
    right. right. rewrite !elem_of_app. tauto.
Qed.

Lemma run_jobs_loop_disk (env : Env) (cfg : Config)
      (disk : list Event -> StatusDocument -> WriteOutcome)
      (todo : list JobSpec) :
  forall successful_jobs failed_jobs s,
    run_jobs_loop (with_write env disk) cfg todo successful_jobs failed_jobs s
    = run_jobs_loop env cfg todo successful_jobs failed_jobs s.
Proof.
  induction todo as [|job rest IH]; intros succ fail s; [reflexivity|].
  cbn [run_jobs_loop]. destruct (is_enabled job); cbn [negb].
  - unfold bind.
    change (run_rsync (with_write env disk) cfg job s)
      with (run_rsync env cfg job s).
    destruct (run_rsync env cfg job s) as [[r|x] s1]; [|reflexivity].
    destruct (rr_success r); apply IH.
  - unfold bind. destruct (log _ _ _ s) as [[u|x] s1]; [apply IH|reflexivity].
Qed.

(** X18: whether the status write of a batch goes through or fails changes
    neither the value the batch returns nor the status it leaves in memory. *)
Theorem batch_outcome_ignores_disk
        (env : Env) (cfg : Config) (s : State)
        (disk : list Event -> StatusDocument -> WriteOutcome) :
  fst (run_all_jobs (with_write env disk) cfg s) = fst (run_all_jobs env cfg s)
  /\ status (snd (run_all_jobs (with_write env disk) cfg s))
     = status (snd (run_all_jobs env cfg s)).
Proof.
  destruct (run_all_jobs_phases env cfg s)
    as (rs & s1 & s' & evs1 & evs2 & evs3 & logs & Hloop & Hrun & _ & _ & _ & _
        & _ & _ & _ & Hdoc & _).
  destruct (run_all_jobs_phases (with_write env disk) cfg s)
    as (rs2 & s12 & s2' & evs12 & evs22 & evs32 & logs2 & Hloop2 & Hrun2 & _
        & _ & _ & _ & _ & _ & _ & Hdoc2 & _).
  rewrite run_jobs_loop_disk, Hloop in Hloop2.
  injection Hloop2 as Hs Hf Hs1. subst s12.
  rewrite Hrun, Hrun2. cbn [fst snd].
  rewrite Hdoc, Hdoc2. unfold batch_document. rewrite Hs, Hf.
  split; reflexivity.
Qed.

(** X19: the next run of the program starts from what this run recorded:
    with a loadable configuration and status writes that go through, the
    status file at the end of a run holds the status the run ended with, and
    [load_status] of the following run installs exactly that document,
    without writing. *)
Theorem next_run_starts_from_last
        (env : Env) (cfg : Config) (s : State) (other : StatusDocument) :
  reliable_writes env ->
  config_file s = Holds cfg ->
  exists s1 s2,
    snd (main env s) = s1
    /\ status_file s1 = Holds (status s1)
    /\ load_status env (with_status other s1) = (Ret tt, s2)
    /\ status s2 = status s1
    /\ trace s2 = trace s1 ++ [EvReadStatus].
Proof.
  intros Hrel Hcfg. unfold main, BackupSync_init, bind.
  rewrite (load_config_ok cfg s Hcfg).
  match goal with
  | |- context [load_status env ?st] =>
      destruct (load_status_returns env st) as (s0 & evs0 & Hload & _)
  end.
  rewrite Hload. unfold ret.
  destruct (run_all_jobs_spec env cfg s0)
    as (rs & s' & evs & Hrun & _ & _ & _ & _ & _ & _ & _ & _ & _ & _ & Hfile).
  rewrite Hrun. unfold sys_exit, raise. cbn [snd].
  specialize (Hfile Hrel).
  exists s'. eexists. split; [reflexivity|]. split; [exact Hfile|].
  unfold load_status. unfold_m. rewrite Hfile. unfold_m.
  repeat split; reflexivity.
Qed.

Lemma next_run_starts_from_last_witness :
  exists s1 s2,
    snd (main env_ok fresh_state) = s1
    /\ status_file s1 = Holds (status s1)
    /\ load_status env_ok (with_status empty_status s1) = (Ret tt, s2)
    /\ status s2 = status s1
    /\ trace s2 = trace s1 ++ [EvReadStatus].
Proof.
  apply (next_run_starts_from_last env_ok sample_cfg fresh_state empty_status).
  - intros tr doc. reflexivity.
  - reflexivity.
Defined.

(** * Properties of the status dashboard *)

Section Dashboard.
Import Web.

Lemma prefix_slash_has_char (s : string) :
  PyStr.has_char "/" s = false -> String.prefix "/" s = false.
Proof.
  destruct s as [|c s]; [reflexivity|]. intros H.
  cbn [PyStr.has_char] in H. apply orb_false_iff in H as [Hc _].
  change (String.prefix "/" (String c s))
    with (if ascii_dec "/" c then String.prefix "" s else false).
  destruct (ascii_dec "/" c) as [<-|Hne]; [|reflexivity].
  rewrite Ascii.eqb_refl in Hc. discriminate.
Qed.

Lemma last_piece_no_sep (sep : ascii) (s name : string) :
  last (PyStr.split sep s) = Some name -> PyStr.has_char sep name = false.
Proof.
  intros H. apply last_Some_elem_of in H.
  pose proof (split_pieces_no_sep sep s) as Hall.
  rewrite List.Forall_forall in Hall. apply Hall, list_elem_of_In, H.
Qed.

Lemma logs_path (name : string) :
  PyStr.has_char "/" name = false ->
  os_path_join "logs" name = "logs/" +:+ name.
Proof.
  intros H. unfold os_path_join. rewrite (prefix_slash_has_char name H).
  reflexivity.
Qed.

Ltac unfold_w :=
  unfold path_exists, read_file, http, wbind, wtry, wret, wlift, index_error;
  cbv beta iota zeta.

Ltac step_http :=
  match goal with
  | |- context [match web_http ?e ?t ?c with _ => _ end] =>
      let E := fresh "Hhttp" in
      destruct (web_http e t c) eqn:E; rewrite ?E
  end.

Ltac close_request :=
  eexists; split; [rewrite <- ?app_assoc; reflexivity|];
  cbn [opened http_calls omap app mbind mret];
  repeat split; try discriminate; try lia;
    try (intros ? Hin;
         repeat (apply elem_of_cons in Hin as [->|Hin]; [|]);
         try solve [inversion Hin]);
    eauto 10.

(** X20: whatever the request path, the file system and the socket do,
    [serve_log_file] opens at most one file, and only a file that sits
    directly in the logs directory: its path is "logs/" followed by a name
    without any slash that ends in ".log", and that [os.path.exists] has
    just reported as present. The request is always answered (at least one
    call on the response), and the handler raises only when sending the
    500 reply itself fails. *)
Theorem serve_log_file_confined
        (env : WebEnv) (path : string) (tr : list WebEvent) :
  exists evs,
    snd (serve_log_file env path tr) = tr ++ evs
    /\ (forall p, p ∈ opened evs ->
          exists name,
            p = "logs/" +:+ name
            /\ PyStr.has_char "/" name = false
            /\ endswith name ".log" = true
            /\ web_exists env tr p = true)
    /\ (length (opened evs) <= 1)%nat
    /\ http_calls evs <> []
    /\ (fst (serve_log_file env path tr) = Ret tt
        \/ exists e message,
             fst (serve_log_file env path tr) = Raise (Exc e)
             /\ last evs = Some (WHttp (SendError 500 (Some message)) (Some e))).
Proof.
  unfold serve_log_file, list_item_last.
  destruct (last (PyStr.split "/" path)) as [name|] eqn:Hlast.
  2:{ unfold_w. step_http; cbn [fst snd]; close_request. }
  pose proof (last_piece_no_sep "/" path name Hlast) as Hname.
  unfold_w. rewrite !(logs_path name Hname).
  destruct (web_exists env tr ("logs/" +:+ name)) eqn:Hex; cbn [negb orb].
  2:{ step_http; [step_http|]; cbn [fst snd]; close_request. }
  destruct (endswith name ".log") eqn:Hend; cbn [negb].
  2:{ step_http; [step_http|]; cbn [fst snd]; close_request. }
  assert (Hopen : forall p, p ∈ ["logs/" +:+ name] ->
    exists name0, p = "logs/" +:+ name0
                  /\ PyStr.has_char "/" name0 = false
                  /\ endswith name0 ".log" = true
                  /\ web_exists env tr p = true).
  { intros p Hp. apply list_elem_of_singleton in Hp as ->. eauto. }
  destruct (web_open env _ _) as [e|content];
    [step_http; cbn [fst snd]; close_request|].
  step_http; [step_http; cbn [fst snd]; close_request|].
  step_http; [step_http; cbn [fst snd]; close_request|].
  step_http; [step_http; cbn [fst snd]; close_request|].
  step_http; [step_http; cbn [fst snd]; close_request|].
  step_http; [step_http; cbn [fst snd]; close_request|].
  cbn [fst snd]; close_request.
Qed.

End Dashboard.

(** X21: the dashboard's [load_status] returns, for every state of the status
    file, the very document the engine's [load_status] installs (the stored
    one, or the empty default when the file is absent or unreadable), never
    raises, and, unlike the engine's, neither writes the file nor logs. *)
Theorem dashboard_loads_like_engine (env : Env) (s : State) :
  web_load_status s
  = (Ret (loaded_document (status_file s)), emit EvReadStatus s)
  /\ exists s',
       load_status env s = (Ret tt, s')
       /\ status s' = loaded_document (status_file s).
Proof.
  split.
  - unfold web_load_status, loaded_document. unfold_m.
    destruct (status_file s) as [|doc|e]; cbn [exc_class]; try reflexivity.
    destruct (exc_class e); reflexivity.
  - destruct (load_status_returns env s) as (s' & evs & Hload & _ & _ & _ & Hst).
    exists s'. split; assumption.
Qed.
